(** * Delegation and streaming core of the support chat backend

    A shallow embedding of the orchestration code of the API:

    - [tools/billing.tools.ts]: [checkRefundStatus], [requestRefund];
    - [agents/base.agent.ts]: [BaseAgent.streamResponse];
    - [agents/router.agent.ts]: [RouterAgent.route], [processMessage];
    - [services/conversation.service.ts]: [ConversationService];
    - [services/chat.service.ts]: [ChatService.streamChat], [chat].

    Async functions and async generators run in one monad [Run]: it threads
    the world (database, log of text-generation calls, clock), collects the
    chunks a generator yields, and ends either with a value or with a thrown
    JavaScript value.  The text-generation capability and Prisma are outside
    the repository: the first is a [LanguageModel] record of oracles, the
    second a small store with Prisma's failure behaviour. *)

From Stdlib Require Import Ascii String QArith Qround Qabs Lqa.
From stdpp Require Import gmap strings list pretty.

Local Open Scope string_scope.
Local Open Scope list_scope.

(** ** JavaScript values *)

(** A JavaScript number, taken as an exact rational.  Comparisons and
    truthiness tests of the doubles the code handles agree with those of
    the rationals.  A subtraction is exact here where the source rounds to
    the nearest double; the two agree when the operands are equal or one of
    them is 0, and the statements below read a difference in those cases
    only.  There is no NaN and no Infinity. *)
Definition number := Q.

(** [x || d] on an optional number: [undefined], [null] and [0] are falsy. *)
Definition num_or (x : option number) (d : number) : number :=
  match x with
  | Some v => if Qeq_bool v 0 then d else v
  | None => d
  end.

(** [x || d] on strings: the empty string is falsy. *)
Definition str_or (x d : string) : string :=
  if String.eqb x "" then d else x.

Definition Qlt_bool (x y : Q) : bool := negb (Qle_bool y x).

Definition newline : string := String "010"%char "".
Definition dquote : string := String "034"%char "".

Definition pad2 (n : Z) : string :=
  if (n <? 10)%Z then "0" +:+ pretty n else pretty n.

(** [x.toFixed(2)] on the exact rational: the integer [n] with [n / 100]
    nearest to [x], the larger one on a tie; a negative [x] prints as ["-"]
    and the digits of [-x].  The source rounds the binary double instead
    (so [(1.005).toFixed(2)] is ['1.00'] there) and prints an exponent from
    [1e21] on.  Only the [message] fields of the billing tools use it, and
    no statement below reads them. *)
Definition toFixed2 (x : number) : string :=
  let n := Qfloor (Qabs x * 100 + (1 # 2)) in
  (if Qlt_bool x 0 then "-" else "")
    +:+ pretty (n / 100)%Z +:+ "." +:+ pad2 (n mod 100)%Z.

(** A JSON value that the code passes along without looking inside. *)
Definition Json := string.

(** What a [throw] carries: an [Error] object with its message, or any
    other value. *)
Inductive Thrown :=
| ErrorObject (message : string)
| ThrownValue.

(** ** Shared types ([packages/shared]) *)

Inductive AgentType := router | support | order | billing.
Inductive MessageRole := user | assistant | system | tool.
Inductive PaymentStatus :=
  pending | completed | failed | refunded | partially_refunded.

Global Instance AgentType_eq_dec : EqDecision AgentType.
Proof. solve_decision. Defined.
Global Instance MessageRole_eq_dec : EqDecision MessageRole.
Proof. solve_decision. Defined.
Global Instance PaymentStatus_eq_dec : EqDecision PaymentStatus.
Proof. solve_decision. Defined.

Definition status_text (s : PaymentStatus) : string :=
  match s with
  | pending => "pending"
  | completed => "completed"
  | failed => "failed"
  | refunded => "refunded"
  | partially_refunded => "partially_refunded"
  end.

(** One recorded tool invocation; a [tool_call] chunk carries no result and
    a [tool_result] chunk no arguments. *)
Record ToolRecord := mkToolRecord {
  tr_tool : string;
  tr_args : option Json;
  tr_result : option Json
}.

(** ** Stream chunks *)

Inductive ChunkType :=
  t_routing | t_thinking | t_tool_call | t_tool_result | t_text_delta
| t_done | t_error.

Global Instance ChunkType_eq_dec : EqDecision ChunkType.
Proof. solve_decision. Defined.

(** The two payloads a [done] chunk has in the code: the responder's
    [{ fullText, toolCalls }] and the chat service's
    [{ conversationId, messageId, agentType, fullText }]. *)
Inductive DoneData :=
| AgentDone (fullText : string) (toolCalls : list ToolRecord)
| ChatDone (conversationId messageId : string) (agentType : AgentType)
           (fullText : string).

Inductive StreamChunk :=
| Thinking (message : string) (conversationId : option string)
| Routing (agent : AgentType) (agentName reason : string)
          (confidence : number)
| ToolCall (tool_name : string) (args : Json)
| ToolResult (tool_name : string) (result : Json)
| TextDelta (delta : string)
| Done (data : DoneData)
| Error (message : string).

Definition chunk_type (c : StreamChunk) : ChunkType :=
  match c with
  | Thinking _ _ => t_thinking
  | Routing _ _ _ _ => t_routing
  | ToolCall _ _ => t_tool_call
  | ToolResult _ _ => t_tool_result
  | TextDelta _ => t_text_delta
  | Done _ => t_done
  | Error _ => t_error
  end.

Definition has_type (t : ChunkType) (c : StreamChunk) : bool :=
  bool_decide (chunk_type c = t).


(** ** The text-generation capability (the [ai] SDK)

    Outside the repository.  A [LanguageModel] gives, for each request, what
    the SDK call does: [generateText] resolves or rejects; [streamText] gives
    the parts of [fullStream] in order, the steps reported to [onStepFinish],
    and the value the stream throws after its last part, if any. *)

Inductive MessageContent :=
| TextContent (text : string)
| PartsContent (json : Json).

Record CoreMessage := mkCoreMessage {
  role : MessageRole;
  content : MessageContent
}.

(** [z.infer<typeof routingSchema>] *)
Record RoutingResult := mkRoutingResult {
  rr_agent : AgentType;
  rr_confidence : number;
  rr_reasoning : string
}.

Record RouteToolCall := mkRouteToolCall {
  toolName : string;
  rtc_args : RoutingResult
}.

Record GenerateTextRequest := mkGenerateTextRequest {
  gt_system : string;
  gt_user_content : string;
  gt_toolChoice : string
}.

Record GenerateTextResult := mkGenerateTextResult {
  gt_toolCalls : option (list RouteToolCall)
}.

Inductive TextStreamPart :=
| PartToolCall (tool_name : string) (args : Json)
| PartToolResult (tool_name : string) (result : Json)
| PartTextDelta (textDelta : string)
| PartOther (kind : string).

Record StepToolCall := mkStepToolCall {
  sc_toolCallId : string;
  sc_toolName : string;
  sc_args : Json
}.

Record StepToolResult := mkStepToolResult {
  sr_toolCallId : string;
  sr_result : Json
}.

Record StepResult := mkStepResult {
  step_toolCalls : option (list StepToolCall);
  step_toolResults : option (list StepToolResult)
}.

Record StreamTextRequest := mkStreamTextRequest {
  st_system : string;
  st_messages : list CoreMessage;
  st_tools : list string;
  st_maxSteps : nat
}.

Record StreamTextResult := mkStreamTextResult {
  fullStream : list TextStreamPart;
  st_steps : list StepResult;
  st_thrown : option Thrown
}.

Record AgentTextResult := mkAgentTextResult {
  at_text : string;
  at_steps : list StepResult
}.

Inductive Outcome (A : Type) :=
| Returned (a : A)
| Threw (e : Thrown).
Arguments Returned {A} a.
Arguments Threw {A} e.

Record LanguageModel := mkLanguageModel {
  llm_generateText : GenerateTextRequest -> Outcome GenerateTextResult;
  llm_streamText : StreamTextRequest -> StreamTextResult;
  llm_generateAgentText : StreamTextRequest -> Outcome AgentTextResult
}.

Inductive LlmCall :=
| GenerateTextCall (req : GenerateTextRequest)
| StreamTextCall (req : StreamTextRequest)
| GenerateAgentTextCall (req : StreamTextRequest).

(** ** Persisted data (Prisma) *)

Record ConversationRow := mkConversationRow {
  c_id : string;
  c_userId : string;
  c_title : option string;
  c_summary : option string;
  c_createdAt : N;
  c_updatedAt : N
}.

Record MessageRow := mkMessageRow {
  m_id : string;
  m_conversationId : string;
  m_role : MessageRole;
  m_content : string;
  m_agentType : option AgentType;
  m_toolCalls : option (list ToolRecord);
  m_toolResults : option Json;
  m_createdAt : N
}.

Record Payment := mkPayment {
  p_invoiceNumber : string;
  p_amount : number;
  p_status : PaymentStatus;
  p_method : string;
  p_refundAmount : option number;
  p_refundReason : option string
}.

(** Conversations are keyed by id and payments by their unique invoice
    number; [messages] is in creation order, the order of [createdAt]. *)
Record Db := mkDb {
  conversations : gmap string ConversationRow;
  messages : list MessageRow;
  payments : gmap string Payment;
  next_id : nat
}.

Record World := mkWorld {
  db : Db;
  llm_log : list LlmCall;
  now : N
}.

(** ** The monad of async functions and generators *)

Record Res (A : Type) := mkRes {
  yielded : list StreamChunk;
  world_after : World;
  outcome : Outcome A
}.
Arguments mkRes {A} _ _ _.
Arguments yielded {A} _.
Arguments world_after {A} _.
Arguments outcome {A} _.

Definition Run (A : Type) : Type := World -> Res A.

Definition ret {A} (a : A) : Run A := fun w => mkRes [] w (Returned a).

Definition bind {A B} (m : Run A) (k : A -> Run B) : Run B := fun w =>
  let r := m w in
  match outcome r with
  | Returned a =>
      let r' := k a (world_after r) in
      mkRes (yielded r ++ yielded r') (world_after r') (outcome r')
  | Threw e => mkRes (yielded r) (world_after r) (Threw e)
  end.

Definition throw {A} (e : Thrown) : Run A := fun w => mkRes [] w (Threw e).

Definition yield (c : StreamChunk) : Run unit :=
  fun w => mkRes [c] w (Returned tt).

(** [try { m } catch (error) { h error }]: what [m] yielded and did to the
    world before it threw stays. *)
Definition try_catch {A} (m : Run A) (h : Thrown -> Run A) : Run A := fun w =>
  let r := m w in
  match outcome r with
  | Returned a => r
  | Threw e =>
      let r' := h e (world_after r) in
      mkRes (yielded r ++ yielded r') (world_after r') (outcome r')
  end.

Definition get_db : Run Db := fun w => mkRes [] w (Returned (db w)).
Definition put_db (d : Db) : Run unit :=
  fun w => mkRes [] (mkWorld d (llm_log w) (now w)) (Returned tt).
Definition get_now : Run N := fun w => mkRes [] w (Returned (now w)).
Definition log_call (c : LlmCall) : Run unit :=
  fun w => mkRes [] (mkWorld (db w) (llm_log w ++ [c]) (now w)) (Returned tt).
Definition lift_outcome {A} (o : Outcome A) : Run A :=
  fun w => mkRes [] w o.

Declare Scope run_scope.
Delimit Scope run_scope with run.
Bind Scope run_scope with Run.
Notation "x <- m ;; k" := (bind m (fun x => k))
  (at level 100, m at next level, k at level 200, right associativity)
  : run_scope.
Notation "m ;;; k" := (bind m (fun _ => k))
  (at level 100, k at level 200, right associativity) : run_scope.
Local Open Scope run_scope.

(** ** Prisma operations *)

Definition gen_id (pre : string) (n : nat) : string := pre +:+ pretty n.

Definition conversation_create (userId : string) (title : option string)
  : Run ConversationRow :=
  d <- get_db ;;
  t <- get_now ;;
  let row := mkConversationRow (gen_id "conv_" (next_id d)) userId title None t t in
  put_db (mkDb (<[c_id row := row]> (conversations d)) (messages d)
               (payments d) (S (next_id d))) ;;;
  ret row.

(** [db.message.create]: the row refers to its conversation, so creating a
    message of an absent conversation is rejected. *)
Definition message_create (conversationId : string) (r : MessageRole)
    (text : string) (agentType : option AgentType)
    (toolCalls : option (list ToolRecord)) (toolResults : option Json)
  : Run MessageRow :=
  d <- get_db ;;
  t <- get_now ;;
  match conversations d !! conversationId with
  | None => throw (ErrorObject "Foreign key constraint failed on the field: conversationId")
  | Some _ =>
      let row := mkMessageRow (gen_id "msg_" (next_id d)) conversationId r text
                   agentType toolCalls toolResults t in
      put_db (mkDb (conversations d) (messages d ++ [row]) (payments d)
                   (S (next_id d))) ;;;
      ret row
  end.

(** [db.conversation.update]: rejected when no row has the id. *)
Definition conversation_update (id : string)
    (f : ConversationRow -> ConversationRow) : Run ConversationRow :=
  d <- get_db ;;
  match conversations d !! id with
  | None => throw (ErrorObject "Record to update not found.")
  | Some row =>
      put_db (mkDb (<[id := f row]> (conversations d)) (messages d)
                   (payments d) (next_id d)) ;;;
      ret (f row)
  end.

(** [db.message.findMany] with [where: { conversationId, createdAt: { lt } }],
    [orderBy: { createdAt: 'asc' }] and [take]. *)
Definition message_findMany (conversationId : string) (before : option N)
    (n : nat) : Run (list MessageRow) :=
  d <- get_db ;;
  ret (take n (List.filter (fun m =>
         String.eqb (m_conversationId m) conversationId &&
         match before with Some b => (m_createdAt m <? b)%N | None => true end)
       (messages d))).

Definition payment_findUnique (invoiceNumber : string) : Run (option Payment) :=
  d <- get_db ;;
  ret (payments d !! invoiceNumber).

(** ** Billing tools ([tools/billing.tools.ts]) *)

Record RefundStatus := mkRefundStatus {
  rs_invoiceNumber : string;
  originalAmount : number;
  paymentStatus : PaymentStatus;
  hasRefund : bool;
  rs_refundAmount : option number;
  rs_refundReason : option string;
  remainingBalance : option number;
  refundEligible : bool;
  rs_message : string
}.

Inductive CheckRefundResult :=
| RefundNotFound (message : string)
| RefundFound (refundStatus : RefundStatus).

Definition is_refund_status (s : PaymentStatus) : bool :=
  bool_decide (s = refunded) || bool_decide (s = partially_refunded).

Definition checkRefundStatus (invoiceNumber : string) : Run CheckRefundResult :=
  payment <- payment_findUnique invoiceNumber ;;
  match payment with
  | None => ret (RefundNotFound ("No invoice found with number " +:+ invoiceNumber))
  | Some payment =>
      let hasRefund := is_refund_status (p_status payment) in
      ret (RefundFound {|
        rs_invoiceNumber := p_invoiceNumber payment;
        originalAmount := p_amount payment;
        paymentStatus := p_status payment;
        hasRefund := hasRefund;
        rs_refundAmount := p_refundAmount payment;
        rs_refundReason := p_refundReason payment;
        remainingBalance :=
          if hasRefund
          then Some (p_amount payment - num_or (p_refundAmount payment) 0)%Q
          else None;
        refundEligible := bool_decide (p_status payment = completed);
        rs_message :=
          if hasRefund then
            "A refund of $"
              +:+ match p_refundAmount payment with
                  | Some r => toFixed2 r
                  | None => "undefined"
                  end
              +:+ " has been processed. "
              +:+ (if bool_decide (p_status payment = partially_refunded)
                   then "Remaining balance: $"
                          +:+ toFixed2 (p_amount payment
                                        - num_or (p_refundAmount payment) 0)%Q
                   else "Full refund completed.")
          else if bool_decide (p_status payment = completed) then
            "This payment is eligible for a refund. Would you like to initiate a refund request?"
          else
            "This payment cannot be refunded because it is currently "
              +:+ status_text (p_status payment) +:+ "."
      |})
  end.

Record RefundRequest := mkRefundRequest {
  rq_invoiceNumber : string;
  rq_originalAmount : number;
  rq_refundAmount : number;
  isPartialRefund : bool;
  rq_reason : string;
  estimatedProcessingTime : string;
  refundMethod : string;
  referenceNumber : string;
  rq_message : string
}.

Inductive RequestRefundResult :=
| RefundRefused (message : string) (currentStatus : option PaymentStatus)
| RefundAccepted (refundRequest : RefundRequest).

(** The [success] field of the result. *)
Definition success (r : RequestRefundResult) : bool :=
  match r with
  | RefundRefused _ _ => false
  | RefundAccepted _ => true
  end.

Definition requestRefund (invoiceNumber : string) (amount : option number)
    (reason : string) : Run RequestRefundResult :=
  payment <- payment_findUnique invoiceNumber ;;
  match payment with
  | None =>
      ret (RefundRefused ("No invoice found with number " +:+ invoiceNumber) None)
  | Some payment =>
      if negb (bool_decide (p_status payment = completed)) then
        ret (RefundRefused
               ("Cannot refund invoice " +:+ invoiceNumber
                  +:+ " - payment status is " +:+ status_text (p_status payment)
                  +:+ ".")
               (Some (p_status payment)))
      else
        let refundAmount := num_or amount (p_amount payment) in
        if Qlt_bool (p_amount payment) refundAmount then
          ret (RefundRefused
                 ("Refund amount ($" +:+ toFixed2 refundAmount
                    +:+ ") cannot exceed the original payment amount ($"
                    +:+ toFixed2 (p_amount payment) +:+ ").")
                 None)
        else
          t <- get_now ;;
          ret (RefundAccepted {|
            rq_invoiceNumber := p_invoiceNumber payment;
            rq_originalAmount := p_amount payment;
            rq_refundAmount := refundAmount;
            isPartialRefund := Qlt_bool refundAmount (p_amount payment);
            rq_reason := reason;
            estimatedProcessingTime := "5-7 business days";
            refundMethod := "Original payment method (" +:+ p_method payment +:+ ")";
            referenceNumber := "REF-" +:+ pretty t;
            rq_message := "Refund of $" +:+ toFixed2 refundAmount
              +:+ " has been initiated. You will receive a confirmation email shortly."
          |})
  end.

(** The seeded payments of [db/seed.ts] that the refund tools are about. *)
Definition seed_payments : gmap string Payment :=
  list_to_map [
    ("INV-2024-SUB-001", mkPayment "INV-2024-SUB-001" (2999 # 100) completed "credit_card" None None);
    ("INV-2024-004", mkPayment "INV-2024-004" (7999 # 100) refunded "credit_card"
                       (Some (7999 # 100)) (Some "Order cancelled by customer"));
    ("INV-2024-005", mkPayment "INV-2024-005" (4999 # 100) partially_refunded "credit_card"
                       (Some (25 # 1)) (Some "Partial refund for service issue"))
  ].

Definition seed_world : World :=
  mkWorld (mkDb ∅ [] seed_payments 0) [] 1700000000000%N.

(** ** Responders ([agents/base.agent.ts] and its three subclasses) *)

Record AgentConfig := mkAgentConfig {
  a_type : AgentType;
  a_name : string;
  a_description : string;
  a_systemPrompt : string;
  a_tools : list string
}.

Record AgentContext := mkAgentContext {
  ctx_userId : string;
  ctx_conversationId : string;
  ctx_messages : list CoreMessage
}.

Record AgentResponse := mkAgentResponse {
  ar_content : string;
  ar_toolCalls : option (list ToolRecord)
}.

(** The prompts are passed to the text-generation capability and never
    inspected by the code; each is cut here to its first sentence. *)
Definition SUPPORT_SYSTEM_PROMPT : string :=
  "You are a friendly and knowledgeable Support Agent for our customer service platform.".
Definition ORDER_SYSTEM_PROMPT : string :=
  "You are a specialized Order Agent for our customer service platform.".
Definition BILLING_SYSTEM_PROMPT : string :=
  "You are a specialized Billing Agent for our customer service platform.".
Definition ROUTER_SYSTEM_PROMPT : string :=
  "You are a Router Agent that analyzes customer queries and delegates them to the appropriate specialized agent.".

Definition supportAgent : AgentConfig :=
  mkAgentConfig support "Support Agent"
    "Handles general support inquiries, FAQs, and troubleshooting"
    SUPPORT_SYSTEM_PROMPT
    ["searchFAQs"; "getConversationHistory"; "getUserInfo"].

Definition orderAgent : AgentConfig :=
  mkAgentConfig order "Order Agent"
    "Handles order status, tracking, modifications, and cancellations"
    ORDER_SYSTEM_PROMPT
    ["getOrderByNumber"; "getUserOrders"; "checkDeliveryStatus"; "cancelOrder";
     "modifyOrder"].

Definition billingAgent : AgentConfig :=
  mkAgentConfig billing "Billing Agent"
    "Handles payment issues, refunds, invoices, and subscription queries"
    BILLING_SYSTEM_PROMPT
    ["getInvoiceDetails"; "getUserPayments"; "checkRefundStatus"; "requestRefund";
     "getSubscription"; "cancelSubscription"].

Definition buildSystemPrompt (agent : AgentConfig) (context : AgentContext)
  : string :=
  a_systemPrompt agent +:+ newline +:+ newline
    +:+ "Current Context:" +:+ newline
    +:+ "- User ID: " +:+ ctx_userId context +:+ newline
    +:+ "- Conversation ID: " +:+ ctx_conversationId context +:+ newline +:+ newline
    +:+ "Guidelines:" +:+ newline
    +:+ "- Be helpful, professional, and concise" +:+ newline
    +:+ "- Use available tools to fetch real data when needed" +:+ newline
    +:+ "- If you cannot help with a request, explain why clearly" +:+ newline
    +:+ "- Always maintain a friendly and supportive tone".

(** The [onStepFinish] callback: what one finished step pushes on
    [toolCalls]. *)
Definition onStepFinish (step : StepResult) : list ToolRecord :=
  match step_toolCalls step with
  | Some calls =>
      map (fun toolCall =>
             let toolResult :=
               match step_toolResults step with
               | Some results =>
                   find (fun r => String.eqb (sr_toolCallId r) (sc_toolCallId toolCall))
                        results
               | None => None
               end in
             mkToolRecord (sc_toolName toolCall) (Some (sc_args toolCall))
                          (option_map sr_result toolResult))
          calls
  | None => []
  end.

(** The [for await (const part of fullStream)] loop of [streamResponse],
    with its accumulator [fullText]; it returns the accumulated text. *)
Fixpoint stream_parts (parts : list TextStreamPart) (fullText : string)
  : Run string :=
  match parts with
  | [] => ret fullText
  | PartToolCall t a :: rest =>
      yield (ToolCall t a) ;;; stream_parts rest fullText
  | PartToolResult t r :: rest =>
      yield (ToolResult t r) ;;; stream_parts rest fullText
  | PartTextDelta d :: rest =>
      let fullText := fullText +:+ d in
      yield (TextDelta d) ;;; stream_parts rest fullText
  | PartOther _ :: rest => stream_parts rest fullText
  end.

Definition agent_request (agent : AgentConfig) (context : AgentContext)
  : StreamTextRequest :=
  mkStreamTextRequest (buildSystemPrompt agent context) (ctx_messages context)
                      (a_tools agent) 5.

Definition streamResponse (model : LanguageModel) (agent : AgentConfig)
    (context : AgentContext) : Run unit :=
  let req := agent_request agent context in
  log_call (StreamTextCall req) ;;;
  let result := llm_streamText model req in
  fullText <- stream_parts (fullStream result) "" ;;
  match st_thrown result with
  | Some e => throw e
  | None =>
      yield (Done (AgentDone fullText (flat_map onStepFinish (st_steps result))))
  end.

Definition generateResponse (model : LanguageModel) (agent : AgentConfig)
    (context : AgentContext) : Run AgentResponse :=
  let req := agent_request agent context in
  log_call (GenerateAgentTextCall req) ;;;
  result <- lift_outcome (llm_generateAgentText model req) ;;
  let toolCalls := flat_map onStepFinish (at_steps result) in
  ret (mkAgentResponse (at_text result)
         (if (0 <? length toolCalls)%nat then Some toolCalls else None)).

(** ** The router ([agents/router.agent.ts]) *)

Definition getAgent (t : AgentType) : option AgentConfig :=
  match t with
  | support => Some supportAgent
  | order => Some orderAgent
  | billing => Some billingAgent
  | router => None
  end.

Definition content_text (c : MessageContent) : string :=
  match c with
  | TextContent s => s
  | PartsContent json => json
  end.

Definition route_fallback : AgentConfig * RoutingResult :=
  (supportAgent,
   mkRoutingResult support (1 # 2)
     "Could not determine intent, defaulting to support").

(** The single [generateText] request of [route] for the last user
    message. *)
Definition classify_request (context : AgentContext)
    (lastUserMessage : CoreMessage) : GenerateTextRequest :=
  let assistants :=
    List.filter (fun m => bool_decide (role m = assistant))
                (ctx_messages context) in
  let recentAgentMessages := drop (length assistants - 3) assistants in
  let conversationContext :=
    if (0 <? length recentAgentMessages)%nat
    then "Recent conversation has been with agents handling previous queries."
    else "This is the start of the conversation." in
  mkGenerateTextRequest ROUTER_SYSTEM_PROMPT
    ("Context: " +:+ conversationContext +:+ newline +:+ newline
       +:+ "Current user message: " +:+ dquote
       +:+ content_text (content lastUserMessage) +:+ dquote
       +:+ newline +:+ newline
       +:+ "Analyze this message and route it to the appropriate agent. Call the route tool with your decision.")
    "route".

(** [result.toolCalls?.[0]] *)
Definition first_toolCall (result : GenerateTextResult)
  : option RouteToolCall :=
  match gt_toolCalls result with
  | Some (first :: _) => Some first
  | _ => None
  end.

Definition last_user_message (context : AgentContext) : option CoreMessage :=
  find (fun m => bool_decide (role m = user)) (rev (ctx_messages context)).

Definition route (model : LanguageModel) (context : AgentContext)
  : Run (AgentConfig * RoutingResult) :=
  match last_user_message context with
  | None =>
      ret (supportAgent,
           mkRoutingResult support 1%Q
             "No user message found, defaulting to support")
  | Some lastUserMessage =>
      let req := classify_request context lastUserMessage in
      log_call (GenerateTextCall req) ;;;
      result <- lift_outcome (llm_generateText model req) ;;
      match first_toolCall result with
      | Some toolCall =>
          if String.eqb (toolName toolCall) "route" then
            let routing := rtc_args toolCall in
            let agent := default supportAgent (getAgent (rr_agent routing)) in
            ret (agent, routing)
          else ret route_fallback
      | None => ret route_fallback
      end
  end.

Definition error_message (error : Thrown) : string :=
  match error with
  | ErrorObject message => message
  | ThrownValue => "An unexpected error occurred"
  end.

Definition processMessage (model : LanguageModel) (context : AgentContext)
  : Run unit :=
  try_catch
    (yield (Thinking "Analyzing your request..." None) ;;;
     decision <- route model context ;;
     let agent := fst decision in
     let routing := snd decision in
     yield (Routing (a_type agent) (a_name agent) (rr_reasoning routing)
                    (rr_confidence routing)) ;;;
     yield (Thinking ("Connecting you with " +:+ a_name agent +:+ "...") None) ;;;
     streamResponse model agent context)
    (fun error => yield (Error (error_message error))).

Definition router_generateResponse (model : LanguageModel)
    (context : AgentContext)
  : Run (AgentType * RoutingResult * AgentResponse) :=
  decision <- route model context ;;
  response <- generateResponse model (fst decision) context ;;
  ret (a_type (fst decision), snd decision, response).

(** ** ConversationService ([services/conversation.service.ts]) *)

Definition createConversation (userId : string) (title : option string)
  : Run ConversationRow :=
  conversation_create userId title.

Record CreateMessageInput := mkCreateMessageInput {
  in_conversationId : string;
  in_role : MessageRole;
  in_content : string;
  in_agentType : option AgentType;
  in_toolCalls : option (list ToolRecord);
  in_toolResults : option Json
}.

Definition addMessage (input : CreateMessageInput) : Run MessageRow :=
  message <- message_create (in_conversationId input) (in_role input)
               (in_content input) (in_agentType input) (in_toolCalls input)
               (in_toolResults input) ;;
  t <- get_now ;;
  conversation_update (in_conversationId input)
    (fun c => mkConversationRow (c_id c) (c_userId c) (c_title c) (c_summary c)
                                (c_createdAt c) t) ;;;
  ret message.

(** [options?.limit || 50]: a limit of [0] is falsy. *)
Definition getMessages (conversationId : string) (limit : option nat)
    (before : option N) : Run (list MessageRow) :=
  message_findMany conversationId before
    (match limit with
     | Some (S n) => S n
     | _ => 50%nat
     end).

(** [updateConversation] with [data = { title }]; a failed update is caught
    and gives [null]. *)
Definition updateConversation (conversationId : string) (title : string)
  : Run (option ConversationRow) :=
  try_catch
    (conversation <- conversation_update conversationId
       (fun c => mkConversationRow (c_id c) (c_userId c) (Some title)
                   (c_summary c) (c_createdAt c) (c_updatedAt c)) ;;
     ret (Some conversation))
    (fun _ => ret None).

(** [content.length > 50 ? content.substring(0, 47) + '...' : content] *)
Definition title_of (text : string) : string :=
  if (50 <? String.length text)%nat
  then substring 0 47 text +:+ "..."
  else text.

Definition generateTitle (conversationId : string) : Run string :=
  first_two <- message_findMany conversationId None 2 ;;
  if (length first_two =? 0)%nat then ret "New Conversation" else
  match find (fun m => bool_decide (m_role m = user)) first_two with
  | None => ret "New Conversation"
  | Some firstUserMessage =>
      let title := title_of (m_content firstUserMessage) in
      updateConversation conversationId title ;;;
      ret title
  end.

(** ** ChatService ([services/chat.service.ts]) *)

Record ChatInput := mkChatInput {
  in_userId : string;
  conversationId_opt : option string;
  in_message : string
}.

(** The three variables the relay loop of [streamChat] updates. *)
Record Collected := mkCollected {
  fullResponse : string;
  agentType : AgentType;
  toolCalls : list ToolRecord
}.

(** One turn of the loop body before its [yield chunk]. *)
Definition collect (s : Collected) (chunk : StreamChunk) : Collected :=
  match chunk with
  | Routing a _ _ _ => mkCollected (fullResponse s) a (toolCalls s)
  | TextDelta d => mkCollected (fullResponse s +:+ d) (agentType s) (toolCalls s)
  | ToolCall t a =>
      mkCollected (fullResponse s) (agentType s)
                  (toolCalls s ++ [mkToolRecord t (Some a) None])
  | ToolResult t r =>
      mkCollected (fullResponse s) (agentType s)
                  (toolCalls s ++ [mkToolRecord t None (Some r)])
  | Done (AgentDone text calls) =>
      mkCollected (str_or text (fullResponse s)) (agentType s) calls
  | Done (ChatDone _ _ _ text) =>
      mkCollected (str_or text (fullResponse s)) (agentType s) (toolCalls s)
  | Thinking _ _ | Error _ => s
  end.

(** [for await (const chunk of g) { collect; yield chunk }]: every chunk of
    [g] is yielded again after the loop variables are updated.  The body
    touches neither the database nor the model, so the chunks of [g] and
    the world it leaves are those of running [g] alone. *)
Definition relay (g : Run unit) (s0 : Collected) : Run Collected := fun w =>
  let r := g w in
  mkRes (yielded r) (world_after r)
        (match outcome r with
         | Returned _ => Returned (fold_left collect (yielded r) s0)
         | Threw e => Threw e
         end).

(** [if (!conversationId)]: an absent or empty id is falsy. *)
Definition falsy_id (id : option string) : bool :=
  match id with
  | Some s => String.eqb s ""
  | None => true
  end.

Definition history_messages (history : list MessageRow) : list CoreMessage :=
  map (fun msg => mkCoreMessage (m_role msg) (TextContent (m_content msg)))
      history.

Definition saved_toolCalls (calls : list ToolRecord)
  : option (list ToolRecord) :=
  if (0 <? length (List.filter (fun t => negb (String.eqb (tr_tool t) "")) calls))%nat
  then Some calls
  else None.

Definition streamChat (model : LanguageModel) (input : ChatInput) : Run unit :=
  conversationId <-
    (if falsy_id (conversationId_opt input) then
       conversation <- createConversation (in_userId input) None ;;
       yield (Thinking "Starting new conversation..." (Some (c_id conversation))) ;;;
       ret (c_id conversation)
     else ret (default "" (conversationId_opt input))) ;;
  addMessage (mkCreateMessageInput conversationId user (in_message input)
                                   None None None) ;;;
  history <- getMessages conversationId None None ;;
  let messages := history_messages history in
  s <- relay (processMessage model
                (mkAgentContext (in_userId input) conversationId messages))
             (mkCollected "" support []) ;;
  savedMessage <- addMessage
    (mkCreateMessageInput conversationId assistant (fullResponse s)
       (Some (agentType s)) (saved_toolCalls (toolCalls s)) None) ;;
  (if (length history =? 1)%nat
   then generateTitle conversationId ;;; ret tt
   else ret tt) ;;;
  yield (Done (ChatDone conversationId (m_id savedMessage) (agentType s)
                        (fullResponse s))).

Record ChatResult := mkChatResult {
  res_conversationId : string;
  res_messageId : string;
  res_agentType : AgentType;
  res_response : string;
  toolsUsed : list string
}.

Definition chat (model : LanguageModel) (input : ChatInput) : Run ChatResult :=
  conversationId <-
    (if falsy_id (conversationId_opt input) then
       conversation <- createConversation (in_userId input) None ;;
       ret (c_id conversation)
     else ret (default "" (conversationId_opt input))) ;;
  addMessage (mkCreateMessageInput conversationId user (in_message input)
                                   None None None) ;;;
  history <- getMessages conversationId None None ;;
  let messages := history_messages history in
  result <- router_generateResponse model
              (mkAgentContext (in_userId input) conversationId messages) ;;
  let response := snd result in
  let agent := fst (fst result) in
  savedMessage <- addMessage
    (mkCreateMessageInput conversationId assistant (ar_content response)
       (Some agent) (ar_toolCalls response) None) ;;
  (if (length history =? 1)%nat
   then generateTitle conversationId ;;; ret tt
   else ret tt) ;;;
  ret (mkChatResult conversationId (m_id savedMessage) agent
         (ar_content response)
         (match ar_toolCalls response with
          | Some calls => map tr_tool calls
          | None => []
          end)).

(** ** More of ConversationService *)

Definition conversation_findUnique (id : string) : Run (option ConversationRow) :=
  d <- get_db ;;
  ret (conversations d !! id).

Definition getConversation (conversationId : string)
  : Run (option ConversationRow) :=
  conversation_findUnique conversationId.

(** [findUnique] with [include: { messages: { orderBy: { createdAt: 'asc' } } }]:
    all the messages of the conversation, without [take]. *)
Definition getConversationWithMessages (conversationId : string)
  : Run (option (ConversationRow * list MessageRow)) :=
  d <- get_db ;;
  match conversations d !! conversationId with
  | None => ret None
  | Some conversation =>
      ret (Some (conversation,
                 List.filter (fun m => String.eqb (m_conversationId m) conversationId)
                             (messages d)))
  end.

(** ** Agent listing ([RouterAgent.getAllAgents], [ChatService.getAgents],
    [getAgentCapabilities]) *)










(** ** Controllers ([controllers/chat.controller.ts],
    [controllers/agents.controller.ts]) *)

(** [ApiError] of [middleware/error.middleware.ts]. *)
Record ApiError := mkApiError {
  err_message : string;
  err_code : string;
  err_status : Z
}.

Definition tooManyRequests (message : string) : ApiError :=
  mkApiError message "TOO_MANY_REQUESTS" 429.





(** [x || d] where [x] may be [undefined]. *)
Definition opt_str_or (x : option string) (d : string) : string :=
  match x with
  | Some s => str_or s d
  | None => d
  end.



(** ** Rate limiting ([middleware/ratelimit.middleware.ts]) *)

Record RateLimitEntry := mkRateLimitEntry {
  rl_count : Z;
  rl_resetTime : Z
}.

Record RateLimitConfig := mkRateLimitConfig {
  windowMs : Z;
  maxRequests : Z;
  rl_message : string
}.

Inductive RateLimitOutcome :=
| Allowed (headers : list (string * string))
| Limited (headers : list (string * string)) (error : ApiError).

Definition passed (o : RateLimitOutcome) : bool :=
  match o with
  | Allowed _ => true
  | Limited _ _ => false
  end.

(** [Math.ceil(x / 1000)] on an integer [x]. *)
Definition ceil_seconds (x : Z) : Z := (- ((- x) / 1000))%Z.

Definition allowed_headers (cfg : RateLimitConfig) (current : RateLimitEntry)
  : list (string * string) :=
  [("X-RateLimit-Limit", pretty (maxRequests cfg));
   ("X-RateLimit-Remaining", pretty (Z.max 0 (maxRequests cfg - rl_count current)));
   ("X-RateLimit-Reset", pretty (rl_resetTime current))].

(** The middleware returned by [rateLimit(config)], for the key of the
    request and the time [Date.now()], on the module's shared map. *)
Definition rateLimit (cfg : RateLimitConfig) (key : string) (now : Z)
    (store : gmap string RateLimitEntry)
  : gmap string RateLimitEntry * RateLimitOutcome :=
  let new_window :=
    let current := mkRateLimitEntry 1 (now + windowMs cfg) in
    (<[key := current]> store, Allowed (allowed_headers cfg current)) in
  match store !! key with
  | None => new_window
  | Some entry =>
      if (rl_resetTime entry <? now)%Z then new_window
      else
        let entry := mkRateLimitEntry (rl_count entry + 1) (rl_resetTime entry) in
        let store := <[key := entry]> store in
        if (maxRequests cfg <? rl_count entry)%Z then
          (store,
           Limited
             [("Retry-After", pretty (ceil_seconds (rl_resetTime entry - now)));
              ("X-RateLimit-Limit", pretty (maxRequests cfg));
              ("X-RateLimit-Remaining", "0");
              ("X-RateLimit-Reset", pretty (rl_resetTime entry))]
             (tooManyRequests (rl_message cfg)))
        else (store, Allowed (allowed_headers cfg entry))
  end.

(** The periodic cleanup of [setInterval]. *)
Definition cleanup (now : Z) (store : gmap string RateLimitEntry)
  : gmap string RateLimitEntry :=
  filter (fun kv => ~ (rl_resetTime kv.2 < now)%Z) store.

Record RequestInfo := mkRequestInfo {
  x_forwarded_for : option string;
  x_real_ip : option string;
  x_user_id : option string;
  req_path : string
}.

Definition default_key (c : RequestInfo) : string :=
  opt_str_or (x_forwarded_for c) (opt_str_or (x_real_ip c) "unknown")
    +:+ ":" +:+ req_path c.

Definition chat_key (c : RequestInfo) : string :=
  "chat:" +:+ opt_str_or (x_user_id c) "anonymous".

Definition chatRateLimit_config : RateLimitConfig :=
  mkRateLimitConfig (60 * 1000) 20
    "You are sending messages too quickly. Please wait a moment.".

Definition apiRateLimit_config : RateLimitConfig :=
  mkRateLimitConfig (60 * 1000) 100 "Too many requests, please try again later".

Definition chatRateLimit (c : RequestInfo) :=
  rateLimit chatRateLimit_config (chat_key c).

Definition apiRateLimit (c : RequestInfo) :=
  rateLimit apiRateLimit_config (default_key c).

(** ** Order tools ([tools/order.tools.ts]): [cancelOrder], [modifyOrder]

    Both only read the order table, which is passed to them here; of an
    order they read the number, the status and the total. *)

Inductive OrderStatus :=
  o_pending | o_processing | o_shipped | o_delivered | o_cancelled.

Global Instance OrderStatus_eq_dec : EqDecision OrderStatus.
Proof. solve_decision. Defined.

Definition order_status_text (s : OrderStatus) : string :=
  match s with
  | o_pending => "pending"
  | o_processing => "processing"
  | o_shipped => "shipped"
  | o_delivered => "delivered"
  | o_cancelled => "cancelled"
  end.

Record Order := mkOrder {
  o_orderNumber : string;
  o_status : OrderStatus;
  o_total : number
}.

Inductive CancelOrderResult :=
| CancelRefused (message : string) (currentStatus : option OrderStatus)
| CancelAccepted (message orderNumber : string) (previousStatus : OrderStatus)
                 (refundAmount : number) (refundMessage cancellationReason : string).

Definition cancel_success (r : CancelOrderResult) : bool :=
  match r with
  | CancelRefused _ _ => false
  | CancelAccepted _ _ _ _ _ _ => true
  end.

Definition cancelOrder (orders : gmap string Order) (orderNumber : string)
    (reason : option string) : CancelOrderResult :=
  match orders !! orderNumber with
  | None => CancelRefused ("No order found with number " +:+ orderNumber) None
  | Some o =>
      if bool_decide (o_status o = o_shipped) || bool_decide (o_status o = o_delivered)
      then CancelRefused
             ("Cannot cancel order " +:+ orderNumber +:+ " - it has already been "
                +:+ order_status_text (o_status o)
                +:+ ". Please initiate a return instead.")
             (Some (o_status o))
      else if bool_decide (o_status o = o_cancelled)
      then CancelRefused
             ("Order " +:+ orderNumber +:+ " has already been cancelled.")
             (Some (o_status o))
      else CancelAccepted
             ("Order " +:+ orderNumber +:+ " has been successfully cancelled.")
             (o_orderNumber o) (o_status o) (o_total o)
             "A refund will be processed within 5-7 business days."
             (opt_str_or reason "Customer requested cancellation")
  end.

Inductive ModifyOrderResult :=
| ModifyNotFound (message : string)
| ModifyInfo (canModify : bool) (orderNumber : string)
             (currentStatus : OrderStatus) (message : string)
             (availableActions : list string).

Definition canModify_of (r : ModifyOrderResult) : bool :=
  match r with
  | ModifyNotFound _ => false
  | ModifyInfo b _ _ _ _ => b
  end.

Definition actions_of (r : ModifyOrderResult) : list string :=
  match r with
  | ModifyNotFound _ => []
  | ModifyInfo _ _ _ _ actions => actions
  end.

Definition modifyOrder (orders : gmap string Order) (orderNumber : string)
  : ModifyOrderResult :=
  match orders !! orderNumber with
  | None => ModifyNotFound ("No order found with number " +:+ orderNumber)
  | Some o =>
      let canModify :=
        bool_decide (o_status o = o_pending)
        || bool_decide (o_status o = o_processing) in
      ModifyInfo canModify (o_orderNumber o) (o_status o)
        (if canModify
         then "This order can be modified. Available options: change shipping address, add/remove items, or cancel order."
         else "This order cannot be modified because it is already "
                +:+ order_status_text (o_status o) +:+ ". "
                +:+ (if bool_decide (o_status o = o_shipped)
                     then "You can track your delivery or initiate a return after receiving it."
                     else ""))
        (if canModify then ["change_address"; "modify_items"; "cancel_order"]
         else if bool_decide (o_status o = o_shipped)
              then ["track_delivery"; "initiate_return"]
              else if bool_decide (o_status o = o_delivered)
                   then ["initiate_return"; "leave_review"]
                   else [])
  end.

(** ** Sample runs *)

Definition hello_model : LanguageModel :=
  mkLanguageModel
    (fun _ => Returned (mkGenerateTextResult
       (Some [mkRouteToolCall "route" (mkRoutingResult order (9 # 10) "asks about orders")])))
    (fun _ => mkStreamTextResult
       [PartToolCall "getUserOrders" "{}"; PartToolResult "getUserOrders" "[]";
        PartOther "step-finish"; PartTextDelta "You have "; PartTextDelta "no orders."]
       [mkStepResult (Some [mkStepToolCall "c1" "getUserOrders" "{}"])
                     (Some [mkStepToolResult "c1" "[]"])]
       None)
    (fun _ => Returned (mkAgentTextResult "You have no orders." [])).

Definition failing_model : LanguageModel :=
  mkLanguageModel
    (fun _ => Threw (ErrorObject "model unavailable"))
    (fun _ => mkStreamTextResult [] [] None)
    (fun _ => Threw (ErrorObject "model unavailable")).

Definition first_message : ChatInput :=
  mkChatInput "user_demo" None "What are my recent orders?".

(** * Reading a run

    Notions used to state the properties: counts and text of chunks, the
    stages of a request, and sample worlds and capabilities. *)

Definition count_type (t : ChunkType) (evs : list StreamChunk) : nat :=
  length (List.filter (has_type t) evs).

(** The [delta] fields of the [text_delta] chunks, concatenated in order. *)
Fixpoint deltas (evs : list StreamChunk) : string :=
  match evs with
  | [] => ""
  | TextDelta d :: rest => d +:+ deltas rest
  | _ :: rest => deltas rest
  end.

(** What the loop of [streamResponse] yields for the parts of a stream,
    and the text deltas among the parts. *)
Definition part_chunk (p : TextStreamPart) : list StreamChunk :=
  match p with
  | PartToolCall t a => [ToolCall t a]
  | PartToolResult t r => [ToolResult t r]
  | PartTextDelta d => [TextDelta d]
  | PartOther _ => []
  end.

Definition part_chunks (parts : list TextStreamPart) : list StreamChunk :=
  flat_map part_chunk parts.

(** A chunk of a responder's tool loop: neither routing, thinking, done
    nor error. *)
Definition loop_chunk (c : StreamChunk) : Prop :=
  match c with
  | ToolCall _ _ | ToolResult _ _ | TextDelta _ => True
  | _ => False
  end.

(** Reduce the projections of a run without unfolding the program. *)
Ltac run_cbn :=
  cbn [outcome world_after yielded app db llm_log now fst snd
       conversations messages payments next_id].

Ltac run_unfold :=
  unfold try_catch, bind, yield, ret, throw, get_db, put_db, get_now,
    log_call, lift_outcome;
  run_cbn.

Definition logged (c : LlmCall) (w : World) : World :=
  mkWorld (db w) (llm_log w ++ [c]) (now w).

(** The [done] chunk that ends a responder run which did not throw. *)
Definition agent_done (result : StreamTextResult) : StreamChunk :=
  Done (AgentDone (deltas (part_chunks (fullStream result)))
                  (flat_map onStepFinish (st_steps result))).

(** What [route] extracts from a resolved [generateText] call. *)
Definition decision_of (result : GenerateTextResult)
  : AgentConfig * RoutingResult :=
  match first_toolCall result with
  | Some toolCall =>
      if String.eqb (toolName toolCall) "route"
      then (default supportAgent (getAgent (rr_agent (rtc_args toolCall))),
            rtc_args toolCall)
      else route_fallback
  | None => route_fallback
  end.

(** The chunks that follow a routing decision, up to the responder. *)
Definition routed (decision : AgentConfig * RoutingResult) : list StreamChunk :=
  [Routing (a_type (fst decision)) (a_name (fst decision))
           (rr_reasoning (snd decision)) (rr_confidence (snd decision));
   Thinking ("Connecting you with " +:+ a_name (fst decision) +:+ "...") None].

(** What the router forwards from the responder, ending in the responder's
    [done] or in the [error] chunk of the [catch]. *)
Definition responder_tail (model : LanguageModel) (agent : AgentConfig)
    (context : AgentContext) : list StreamChunk :=
  let result := llm_streamText model (agent_request agent context) in
  part_chunks (fullStream result)
    ++ [match st_thrown result with
        | None => agent_done result
        | Some e => Error (error_message e)
        end].

(** The router run of the sample conversation: the [routing] chunk is at
    position 1 and the first [tool_call] chunk at position 3. *)
Definition sample_context : AgentContext :=
  mkAgentContext "user_demo" "conv_0"
    [mkCoreMessage user (TextContent "What are my recent orders?")].

Definition assistant_only_context : AgentContext :=
  mkAgentContext "user_demo" "conv_0"
    [mkCoreMessage assistant (TextContent "How can I help?")].


Definition conversation_messages (conversationId : string) (w : World)
  : list MessageRow :=
  List.filter (fun m => String.eqb (m_conversationId m) conversationId)
              (messages (db w)).

(** The row that [addMessage] creates in world [w], and the world it
    leaves when the conversation [c] of the message exists. *)
Definition new_message (input : CreateMessageInput) (w : World) : MessageRow :=
  mkMessageRow (gen_id "msg_" (next_id (db w))) (in_conversationId input)
    (in_role input) (in_content input) (in_agentType input)
    (in_toolCalls input) (in_toolResults input) (now w).

Definition touched (c : ConversationRow) (t : N) : ConversationRow :=
  mkConversationRow (c_id c) (c_userId c) (c_title c) (c_summary c)
                    (c_createdAt c) t.

Definition titled (c : ConversationRow) (title : string) : ConversationRow :=
  mkConversationRow (c_id c) (c_userId c) (Some title) (c_summary c)
                    (c_createdAt c) (c_updatedAt c).

Definition appended (input : CreateMessageInput) (c : ConversationRow)
    (w : World) : World :=
  mkWorld
    (mkDb (<[in_conversationId input := touched c (now w)]> (conversations (db w)))
          (messages (db w) ++ [new_message input w])
          (payments (db w)) (S (next_id (db w))))
    (llm_log w) (now w).

(** The first user message among the first two messages of a
    conversation. *)
Definition first_user_message (conversationId : string) (w : World)
  : option MessageRow :=
  find (fun m => bool_decide (m_role m = user))
       (take 2 (conversation_messages conversationId w)).

Definition orphan_world : World :=
  mkWorld
    (mkDb {[ "conv_0" := mkConversationRow "conv_0" "user_demo" None None 5 5 ]}
          [mkMessageRow "msg_1" "conv_0" assistant "Welcome!" (Some support)
                        None None 5%N]
          seed_payments 2)
    [] 1700000000000%N.

Definition user_input (conversationId : string) (input : ChatInput)
  : CreateMessageInput :=
  mkCreateMessageInput conversationId user (in_message input) None None None.

Definition assistant_input (conversationId : string) (s : Collected)
  : CreateMessageInput :=
  mkCreateMessageInput conversationId assistant (fullResponse s)
    (Some (agentType s)) (saved_toolCalls (toolCalls s)) None.

(** [streamChat] from the point where the conversation id is settled. *)
Definition streamChat_from (model : LanguageModel) (input : ChatInput)
    (conversationId : string) : Run unit :=
  addMessage (user_input conversationId input) ;;;
  history <- getMessages conversationId None None ;;
  let messages := history_messages history in
  s <- relay (processMessage model
                (mkAgentContext (in_userId input) conversationId messages))
             (mkCollected "" support []) ;;
  savedMessage <- addMessage (assistant_input conversationId s) ;;
  (if (length history =? 1)%nat
   then generateTitle conversationId ;;; ret tt
   else ret tt) ;;;
  yield (Done (ChatDone conversationId (m_id savedMessage) (agentType s)
                        (fullResponse s))).

(** The conversation a request runs in: the one it names, or a new one,
    announced by a [thinking] chunk; with the world in which the
    conversation exists. *)
Definition opening (input : ChatInput) (w : World)
  : list StreamChunk * string * World :=
  if falsy_id (conversationId_opt input) then
    let r := createConversation (in_userId input) None w in
    let id := gen_id "conv_" (next_id (db w)) in
    ([Thinking "Starting new conversation..." (Some id)], id, world_after r)
  else ([], default "" (conversationId_opt input), w).

(** The stages of [streamChat] for the conversation [c0] with id
    [conversationId] in world [w0]: the world after the user's message is
    appended, the history read back, the router's run, the state of the
    relay loop after it, the assistant message stored, and the worlds after
    it is stored and after the title step. *)
Definition w_user (input : ChatInput) (conversationId : string)
    (c0 : ConversationRow) (w0 : World) : World :=
  appended (user_input conversationId input) c0 w0.

Definition history (input : ChatInput) (conversationId : string)
    (c0 : ConversationRow) (w0 : World) : list MessageRow :=
  take 50 (conversation_messages conversationId
             (w_user input conversationId c0 w0)).

Definition router_run (model : LanguageModel) (input : ChatInput)
    (conversationId : string) (c0 : ConversationRow) (w0 : World) : Res unit :=
  processMessage model
    (mkAgentContext (in_userId input) conversationId
       (history_messages (history input conversationId c0 w0)))
    (w_user input conversationId c0 w0).

Definition collected (model : LanguageModel) (input : ChatInput)
    (conversationId : string) (c0 : ConversationRow) (w0 : World) : Collected :=
  fold_left collect (yielded (router_run model input conversationId c0 w0))
            (mkCollected "" support []).

Definition saved_message (model : LanguageModel) (input : ChatInput)
    (conversationId : string) (c0 : ConversationRow) (w0 : World) : MessageRow :=
  new_message
    (assistant_input conversationId (collected model input conversationId c0 w0))
    (world_after (router_run model input conversationId c0 w0)).

Definition w_assistant (model : LanguageModel) (input : ChatInput)
    (conversationId : string) (c0 : ConversationRow) (w0 : World) : World :=
  appended
    (assistant_input conversationId (collected model input conversationId c0 w0))
    (touched c0 (now w0))
    (world_after (router_run model input conversationId c0 w0)).

Definition w_final (model : LanguageModel) (input : ChatInput)
    (conversationId : string) (c0 : ConversationRow) (w0 : World) : World :=
  if (length (history input conversationId c0 w0) =? 1)%nat
  then world_after (generateTitle conversationId
                      (w_assistant model input conversationId c0 w0))
  else w_assistant model input conversationId c0 w0.

Definition long_message : ChatInput :=
  mkChatInput "user_demo" (Some "conv_0")
    "I was charged twice for my subscription this month, can you check it?".

Definition open_world : World :=
  mkWorld
    (mkDb {[ "conv_0" := mkConversationRow "conv_0" "user_demo" None None 5 5 ]}
          [] seed_payments 1)
    [] 1700000000000%N.

(** A routing chunk that names one of the responders of [getAgent], with
    that responder's display name. *)
Definition names_responder (c : StreamChunk) : Prop :=
  match c with
  | Routing agent name _ _ =>
      exists cfg, getAgent agent = Some cfg /\ a_type cfg = agent
                  /\ a_name cfg = name
  | _ => True
  end.

Definition two_users_context : AgentContext :=
  mkAgentContext "user_demo" "conv_0"
    [mkCoreMessage user (TextContent "Where is my order?");
     mkCoreMessage assistant (TextContent "It shipped yesterday.");
     mkCoreMessage user (TextContent "Can I get a refund?");
     mkCoreMessage assistant (TextContent "Let me check.")].

(** A capability that classifies as billing and whose stream breaks after
    one delta. *)
Definition breaking_model : LanguageModel :=
  mkLanguageModel
    (fun _ => Returned (mkGenerateTextResult
       (Some [mkRouteToolCall "route"
                (mkRoutingResult billing (8 # 10) "asks about a refund")])))
    (fun _ => mkStreamTextResult [PartTextDelta "Let me "] [] (Some ThrownValue))
    (fun _ => Threw ThrownValue).

(** A conversation whose first two messages are not from the user. *)
Definition late_user_world : World :=
  mkWorld
    (mkDb {[ "conv_0" := mkConversationRow "conv_0" "user_demo" None None 5 5 ]}
          [mkMessageRow "msg_1" "conv_0" system "You are helpful." None None None 5%N;
           mkMessageRow "msg_2" "conv_0" assistant "Welcome!" (Some support)
                        None None 6%N;
           mkMessageRow "msg_3" "conv_0" user "Hi, I need help" None None None 7%N]
          seed_payments 4)
    [] 1700000000000%N.

(** A conversation that starts with a long user message. *)
Definition titled_world : World :=
  mkWorld
    (mkDb {[ "conv_0" := mkConversationRow "conv_0" "user_demo" None None 5 5 ]}
          [mkMessageRow "msg_1" "conv_0" user
             "I was charged twice for my subscription this month, can you check it?"
             None None None 5%N]
          seed_payments 2)
    [] 1700000000000%N.

Definition hello_input : CreateMessageInput :=
  mkCreateMessageInput "conv_0" user "Hello" None None None.

(** [chat] from the point where the conversation id is settled. *)
Definition chat_from (model : LanguageModel) (input : ChatInput)
    (conversationId : string) : Run ChatResult :=
  addMessage (user_input conversationId input) ;;;
  history <- getMessages conversationId None None ;;
  let messages := history_messages history in
  result <- router_generateResponse model
              (mkAgentContext (in_userId input) conversationId messages) ;;
  let response := snd result in
  let agent := fst (fst result) in
  savedMessage <- addMessage
    (mkCreateMessageInput conversationId assistant (ar_content response)
       (Some agent) (ar_toolCalls response) None) ;;
  (if (length history =? 1)%nat
   then generateTitle conversationId ;;; ret tt
   else ret tt) ;;;
  ret (mkChatResult conversationId (m_id savedMessage) agent
         (ar_content response)
         (match ar_toolCalls response with
          | Some calls => map tr_tool calls
          | None => []
          end)).

(** The run of the router in synchronous mode, for the conversation [c0]
    with id [conversationId] in world [w0]. *)
Definition router_sync_run (model : LanguageModel) (input : ChatInput)
    (conversationId : string) (c0 : ConversationRow) (w0 : World)
  : Res (AgentType * RoutingResult * AgentResponse) :=
  router_generateResponse model
    (mkAgentContext (in_userId input) conversationId
       (history_messages (history input conversationId c0 w0)))
    (w_user input conversationId c0 w0).

(** A conversation that already holds 50 messages. *)
Definition crowded_world : World :=
  mkWorld
    (mkDb {[ "conv_0" := mkConversationRow "conv_0" "user_demo" (Some "Orders")
                                           None 5 5 ]}
          (replicate 50
             (mkMessageRow "msg_1" "conv_0" user "Where is my order?" None None
                           None 5%N))
          seed_payments 51)
    [] 1700000000000%N.

Definition follow_up : ChatInput :=
  mkChatInput "user_demo" (Some "conv_0") "Please refund my last payment".


(** The decisions of the limiter for successive requests of one key at the
    given times, starting from [store]: [true] for a request let through. *)
Fixpoint serve (cfg : RateLimitConfig) (key : string) (times : list Z)
    (store : gmap string RateLimitEntry) : list bool :=
  match times with
  | [] => []
  | t :: rest =>
      passed (snd (rateLimit cfg key t store))
        :: serve cfg key rest (fst (rateLimit cfg key t store))
  end.

Definition small_limit : RateLimitConfig :=
  mkRateLimitConfig 1000 2 "Too many requests".

(** A payment marked refunded for which no refund amount was recorded. *)
Definition unrecorded_refund_world : World :=
  mkWorld
    (mkDb ∅ []
          {[ "INV-2024-009" := mkPayment "INV-2024-009" (7999 # 100) refunded
                                         "credit_card" None None ]}
          0)
    [] 1700000000000%N.

Definition seed_orders : gmap string Order :=
  list_to_map [
    ("ORD-2024-001", mkOrder "ORD-2024-001" o_delivered (19997 # 100));
    ("ORD-2024-003", mkOrder "ORD-2024-003" o_processing (15999 # 100))
  ].

(** * Properties *)

(** ** Strings, deltas and chunk counts *)

Lemma append_nil_l (a : string) : "" +:+ a = a.
Proof. reflexivity. Qed.

Lemma append_cons (x : ascii) (a b : string) :
  String x a +:+ b = String x (a +:+ b).
Proof. reflexivity. Qed.

Lemma append_assoc_str (a b c : string) : (a +:+ b) +:+ c = a +:+ (b +:+ c).
Proof.
  induction a as [|x a IH]; [reflexivity|].
  now rewrite !append_cons, IH.
Qed.

Lemma append_empty_r (a : string) : a +:+ "" = a.
Proof.
  induction a as [|x a IH]; [reflexivity|].
  now rewrite append_cons, IH.
Qed.

Lemma deltas_app (a b : list StreamChunk) :
  deltas (a ++ b) = deltas a +:+ deltas b.
Proof.
  induction a as [|c a IH]; simpl; [reflexivity|].
  destruct c; simpl; rewrite ?IH, ?append_assoc_str; reflexivity.
Qed.

Lemma part_chunks_loop (parts : list TextStreamPart) :
  Forall loop_chunk (part_chunks parts).
Proof.
  induction parts as [|p parts IH]; simpl; [constructor|].
  destruct p; simpl; try constructor; simpl; auto.
Qed.

Lemma count_type_app t (a b : list StreamChunk) :
  count_type t (a ++ b) = (count_type t a + count_type t b)%nat.
Proof. unfold count_type. now rewrite List.filter_app, length_app. Qed.

Lemma count_type_loop t (evs : list StreamChunk) :
  Forall loop_chunk evs ->
  t = t_routing \/ t = t_thinking \/ t = t_done \/ t = t_error ->
  count_type t evs = 0%nat.
Proof.
  intros H Ht. induction H as [|c evs Hc _ IH]; [reflexivity|].
  unfold count_type in *. simpl.
  destruct c; simpl in Hc; try contradiction;
    destruct Ht as [-> | [-> | [-> | ->]]]; simpl; exact IH.
Qed.

(** ** The responder loop *)

Lemma stream_parts_run (parts : list TextStreamPart) (acc : string) (w : World) :
  stream_parts parts acc w
  = mkRes (part_chunks parts) w (Returned (acc +:+ deltas (part_chunks parts))).
Proof.
  revert acc. induction parts as [|p parts IH]; intros acc.
  - simpl. unfold ret. now rewrite append_empty_r.
  - destruct p; simpl; unfold bind, yield; simpl; rewrite ?IH; simpl;
      rewrite ?append_assoc_str; reflexivity.
Qed.

Lemma streamResponse_run model agent context w :
  let result := llm_streamText model (agent_request agent context) in
  streamResponse model agent context w
  = mkRes (part_chunks (fullStream result)
             ++ match st_thrown result with
                | None => [agent_done result]
                | Some _ => []
                end)
          (logged (StreamTextCall (agent_request agent context)) w)
          (match st_thrown result with
           | None => Returned tt
           | Some e => Threw e
           end).
Proof.
  intros result. unfold streamResponse, bind, log_call. simpl.
  rewrite stream_parts_run. simpl. fold result.
  destruct (st_thrown result); unfold throw, yield, agent_done; simpl;
    rewrite ?app_nil_r; reflexivity.
Qed.

(** ** The router *)

Lemma route_run_classify model context m w :
  last_user_message context = Some m ->
  route model context w
  = mkRes [] (logged (GenerateTextCall (classify_request context m)) w)
      (match llm_generateText model (classify_request context m) with
       | Returned result => Returned (decision_of result)
       | Threw e => Threw e
       end).
Proof.
  intros Hm. unfold route. rewrite Hm.
  unfold bind, log_call, lift_outcome, decision_of. simpl.
  destruct (llm_generateText model (classify_request context m)) as [result|e];
    simpl; [|reflexivity].
  destruct (first_toolCall result) as [tc|]; [|reflexivity].
  destruct (String.eqb (toolName tc) "route"); reflexivity.
Qed.

Lemma decision_agent_known (result : GenerateTextResult) :
  let agent := fst (decision_of result) in
  agent = supportAgent \/ agent = orderAgent \/ agent = billingAgent.
Proof.
  unfold decision_of. destruct (first_toolCall result) as [tc|]; simpl; auto.
  destruct (String.eqb (toolName tc) "route"); simpl; auto.
  destruct (rr_agent (rtc_args tc)); simpl; auto.
Qed.

Lemma route_run_no_user model context w :
  last_user_message context = None ->
  route model context w
  = mkRes [] w
      (Returned (supportAgent,
                 mkRoutingResult support 1%Q
                   "No user message found, defaulting to support")).
Proof. intros Hm. unfold route. now rewrite Hm. Qed.

(** [route] yields nothing and leaves the database alone. *)
Lemma route_shape model context w :
  exists w1 o,
    route model context w = mkRes [] w1 o /\ db w1 = db w /\ now w1 = now w.
Proof.
  destruct (last_user_message context) as [m|] eqn:Hm.
  - rewrite (route_run_classify _ _ _ _ Hm). eauto.
  - rewrite (route_run_no_user _ _ _ Hm). eauto.
Qed.

Lemma processMessage_run_routed model context w w1 decision :
  route model context w = mkRes [] w1 (Returned decision) ->
  processMessage model context w
  = mkRes (Thinking "Analyzing your request..." None
             :: routed decision ++ responder_tail model (fst decision) context)
          (logged (StreamTextCall (agent_request (fst decision) context)) w1)
          (Returned tt).
Proof.
  intros Hr. unfold processMessage. run_unfold.
  rewrite Hr. run_cbn. rewrite streamResponse_run. run_cbn.
  unfold responder_tail, logged.
  destruct (st_thrown (llm_streamText model (agent_request (fst decision) context)));
    run_cbn; rewrite ?app_nil_r; reflexivity.
Qed.

Lemma processMessage_run_failed model context w w1 e :
  route model context w = mkRes [] w1 (Threw e) ->
  processMessage model context w
  = mkRes [Thinking "Analyzing your request..." None; Error (error_message e)]
          w1 (Returned tt).
Proof.
  intros Hr. unfold processMessage. run_unfold.
  rewrite Hr. reflexivity.
Qed.

Lemma responder_tail_split model agent context :
  exists body final,
    responder_tail model agent context = body ++ [final]
    /\ Forall loop_chunk body
    /\ (chunk_type final = t_done \/ chunk_type final = t_error).
Proof.
  unfold responder_tail. eexists _, _. split; [reflexivity|].
  split; [apply part_chunks_loop|].
  destruct (st_thrown _); simpl; auto.
Qed.

(** The shape of every router run: it never throws, leaves the database
    alone, and its chunks are the opening [thinking], then either the
    [error] of a failed classification or the routing pair followed by the
    responder's chunks and one closing [done] or [error]. *)
Lemma processMessage_shape model context w :
  exists evs w1,
    processMessage model context w = mkRes evs w1 (Returned tt)
    /\ db w1 = db w /\ now w1 = now w
    /\ ((exists msg, evs = [Thinking "Analyzing your request..." None; Error msg])
        \/ (exists decision body final,
              evs = Thinking "Analyzing your request..." None
                      :: routed decision ++ body ++ [final]
              /\ Forall loop_chunk body
              /\ (final = Done (AgentDone (deltas body)
                                  (match final with
                                   | Done (AgentDone _ calls) => calls
                                   | _ => []
                                   end))
                  \/ chunk_type final = t_error))).
Proof.
  destruct (route_shape model context w) as (w1 & o & Hr & Hdb & Hnow).
  destruct o as [decision|e].
  - rewrite (processMessage_run_routed _ _ _ _ _ Hr).
    eexists _, _. split; [reflexivity|]. split; [exact Hdb|]. split; [exact Hnow|].
    right. unfold responder_tail.
    eexists decision, _, _. split; [reflexivity|].
    split; [apply part_chunks_loop|].
    destruct (st_thrown _); simpl; auto.
  - rewrite (processMessage_run_failed _ _ _ _ _ Hr).
    eexists _, _. split; [reflexivity|]. split; [exact Hdb|]. split; [exact Hnow|].
    left. eauto.
Qed.

Lemma loop_chunk_not_routing (c : StreamChunk) :
  loop_chunk c -> chunk_type c <> t_routing.
Proof. destruct c; simpl; intros H; try contradiction; discriminate. Qed.

Lemma Forall_lookup_list {A} (P : A -> Prop) (l : list A) (i : nat) (x : A) :
  Forall P l -> l !! i = Some x -> P x.
Proof.
  intros H. revert i. induction H as [|y l Hy _ IH]; intros [|i] Hi;
    simpl in Hi; try discriminate.
  - now inversion Hi; subst.
  - eauto.
Qed.

(** ** C5: the text deltas add up to the text of the closing [done] *)

(** C5. For every responder run ([BaseAgent.streamResponse]): when the
    stream ends without throwing, the run yields exactly one [done] chunk,
    as its last chunk, and the [fullText] of that chunk is the
    concatenation, in emission order, of the [delta] fields of the
    [text_delta] chunks of the run; when the stream throws, the run throws
    the same value and yields no [done] chunk. *)
Theorem streamResponse_deltas_concat model agent context w :
  let r := streamResponse model agent context w in
  match st_thrown (llm_streamText model (agent_request agent context)) with
  | None =>
      exists body calls,
        yielded r = body ++ [Done (AgentDone (deltas (yielded r)) calls)]
        /\ count_type t_done body = 0%nat
        /\ outcome r = Returned tt
  | Some e => count_type t_done (yielded r) = 0%nat /\ outcome r = Threw e
  end.
Proof.
  intros r. subst r. rewrite streamResponse_run. run_cbn.
  pose proof (part_chunks_loop
                (fullStream (llm_streamText model (agent_request agent context))))
    as Hloop.
  destruct (st_thrown (llm_streamText model (agent_request agent context))).
  - rewrite app_nil_r. split; [|reflexivity].
    apply count_type_loop; auto.
  - eexists _, _. split; [|split; [|reflexivity]].
    + unfold agent_done. rewrite deltas_app. simpl.
      rewrite append_empty_r. reflexivity.
    + apply count_type_loop; auto.
Qed.

(** ** C4: one routing chunk, ahead of the responder's chunks *)

(** C4. For every context, the chunks of [RouterAgent.processMessage]
    contain at most one [routing] chunk, and a [routing] chunk stands at an
    earlier position than every [tool_call] and every [text_delta] chunk. *)
Theorem processMessage_routing_first model context w :
  let evs := yielded (processMessage model context w) in
  (count_type t_routing evs <= 1)%nat
  /\ forall (i j : nat) (ci cj : StreamChunk),
       evs !! i = Some ci -> chunk_type ci = t_routing ->
       evs !! j = Some cj ->
       chunk_type cj = t_tool_call \/ chunk_type cj = t_text_delta ->
       (i < j)%nat.
Proof.
  intros evs. subst evs.
  destruct (processMessage_shape model context w)
    as (evs & w1 & Hrun & _ & _ & Hshape).
  rewrite Hrun. run_cbn.
  destruct Hshape as [[msg ->] | (decision & body & final & -> & Hbody & Hfinal)].
  - split; [unfold count_type; simpl; lia|].
    intros [|[|i]] j ci cj Hi Hti; simpl in Hi; inversion Hi; subst;
      simpl in Hti; discriminate.
  - assert (Hrest : Forall (fun c => chunk_type c <> t_routing) (body ++ [final])).
    { apply Forall_app. split.
      - eapply Forall_impl; [exact Hbody | apply loop_chunk_not_routing].
      - constructor; [|constructor].
        destruct Hfinal as [-> | ->]; discriminate. }
    split.
    + change (Thinking "Analyzing your request..." None
                :: routed decision ++ body ++ [final])
        with ([Thinking "Analyzing your request..." None] ++ routed decision
                ++ (body ++ [final])).
      do 2 rewrite count_type_app.
      assert (count_type t_routing (body ++ [final]) = 0%nat) as ->.
      { clear -Hrest. unfold count_type.
        induction Hrest as [|c l Hc _ IH]; [reflexivity|]. simpl.
        unfold has_type at 1. rewrite bool_decide_eq_false_2 by exact Hc.
        exact IH. }
      unfold count_type. simpl. lia.
    + intros i j ci cj Hi Hti Hj Htj.
      destruct i as [|[|[|i]]]; simpl in Hi.
      * inversion Hi; subst. discriminate.
      * destruct j as [|[|[|j]]]; simpl in Hj; try lia;
          inversion Hj; subst; simpl in Htj; destruct Htj; discriminate.
      * inversion Hi; subst. discriminate.
      * exfalso. eapply (Forall_lookup_list _ _ _ _ Hrest Hi). exact Hti.
Qed.

Lemma processMessage_routing_first_witness :
  let evs := yielded (processMessage hello_model sample_context seed_world) in
  evs !! 1%nat = Some (Routing order "Order Agent" "asks about orders" (9 # 10))
  /\ evs !! 3%nat = Some (ToolCall "getUserOrders" "{}")
  /\ (1 < 3)%nat.
Proof.
  split; [reflexivity|]. split; [reflexivity|].
  apply (proj2 (processMessage_routing_first hello_model sample_context seed_world)
           1%nat 3%nat
           (Routing order "Order Agent" "asks about orders" (9 # 10))
           (ToolCall "getUserOrders" "{}")).
  - reflexivity.
  - reflexivity.
  - reflexivity.
  - left. reflexivity.
Defined.

(** ** C6: classification without a user message *)

Lemma find_none_Forall {A} (f : A -> bool) (l : list A) :
  Forall (fun x => f x = false) l -> find f l = None.
Proof.
  induction 1 as [|x l Hx _ IH]; simpl; [reflexivity|]. now rewrite Hx.
Qed.

Lemma last_user_message_none (context : AgentContext) :
  Forall (fun m => role m <> user) (ctx_messages context) ->
  last_user_message context = None.
Proof.
  intros H. unfold last_user_message. apply find_none_Forall.
  apply Forall_rev. eapply Forall_impl; [exact H|].
  intros m Hm. now apply bool_decide_eq_false_2.
Qed.

(** C6. For every context whose messages contain no user message,
    [RouterAgent.route] returns the support agent with the decision
    [{ agent: 'support', confidence: 1, reasoning: 'No user message found,
    defaulting to support' }], yields nothing and leaves the world as it
    was: in particular the log of text-generation calls is unchanged, so
    the capability is not invoked. *)
Theorem route_no_user_message model context w :
  Forall (fun m => role m <> user) (ctx_messages context) ->
  route model context w
  = mkRes [] w
      (Returned (supportAgent,
                 mkRoutingResult support 1%Q
                   "No user message found, defaulting to support")).
Proof.
  intros H. apply route_run_no_user. now apply last_user_message_none.
Qed.

Lemma route_no_user_message_witness :
  Forall (fun m => role m <> user) (ctx_messages assistant_only_context)
  /\ llm_log (world_after (route failing_model assistant_only_context seed_world))
     = llm_log seed_world
  /\ outcome (route failing_model assistant_only_context seed_world)
     = Returned (supportAgent,
                 mkRoutingResult support 1%Q
                   "No user message found, defaulting to support").
Proof.
  assert (H : Forall (fun m => role m <> user)
                     (ctx_messages assistant_only_context)).
  { repeat constructor. discriminate. }
  split; [exact H|].
  rewrite (route_no_user_message failing_model assistant_only_context seed_world H).
  split; reflexivity.
Defined.

(** ** C7: classification that extracts no route tool call *)




(** ** C3: what [checkRefundStatus] reports about refunds *)

Lemma num_or_balance (amount r : number) :
  (r == amount -> amount - num_or (Some r) 0 == 0)%Q.
Proof.
  intros Hr. unfold num_or. destruct (Qeq_bool r 0) eqn:Hz.
  - apply Qeq_bool_iff in Hz. lra.
  - lra.
Qed.

(** C3, as the spec states it, fails in both halves.  On the seeded
    invoice INV-2024-004, whose status is [refunded], the tool reports
    [hasRefund: true] and a non-null [remainingBalance] although the status
    is not [partially_refunded].  On a payment with status [refunded] and
    no recorded refund amount, the reported [remainingBalance] is the full
    amount of the payment, not 0. *)
Lemma checkRefundStatus_refunded_reports_balance :
  ~ (forall rs,
       outcome (checkRefundStatus "INV-2024-004" seed_world)
       = Returned (RefundFound rs) ->
       hasRefund rs = true -> remainingBalance rs <> None ->
       paymentStatus rs = partially_refunded)
  /\ ~ (forall rs b,
          outcome (checkRefundStatus "INV-2024-009" unrecorded_refund_world)
          = Returned (RefundFound rs) ->
          paymentStatus rs = refunded ->
          remainingBalance rs = Some b -> (b == 0)%Q).
Proof.
  split.
  - intros H.
    specialize (H _ eq_refl eq_refl). simpl in H.
    discriminate H. discriminate.
  - intros H.
    specialize (H _ _ eq_refl eq_refl eq_refl). vm_compute in H.
    discriminate H.
Qed.

(** C3 (amended). For every payment found by its invoice number,
    [checkRefundStatus] changes nothing and reports [hasRefund: true]
    exactly when the status is [refunded] or [partially_refunded], and a
    non-null [remainingBalance] exactly when [hasRefund] is true; for a
    fully refunded payment whose recorded refund amount equals its amount
    the reported balance is exactly 0. *)
Theorem checkRefundStatus_balance w invoiceNumber p :
  payments (db w) !! invoiceNumber = Some p ->
  exists rs,
    checkRefundStatus invoiceNumber w = mkRes [] w (Returned (RefundFound rs))
    /\ paymentStatus rs = p_status p
    /\ (hasRefund rs = true
        <-> p_status p = refunded \/ p_status p = partially_refunded)
    /\ (remainingBalance rs <> None <-> hasRefund rs = true)
    /\ (forall r, p_status p = refunded -> p_refundAmount p = Some r ->
          (r == p_amount p)%Q ->
          exists b, remainingBalance rs = Some b /\ (b == 0)%Q).
Proof.
  intros Hp. unfold checkRefundStatus, payment_findUnique. run_unfold.
  rewrite Hp. run_cbn.
  eexists. split; [reflexivity|]. cbn [paymentStatus hasRefund remainingBalance].
  split; [reflexivity|]. unfold is_refund_status.
  split; [|split].
  - destruct (p_status p); simpl; split; intros H;
      try discriminate; auto; destruct H; discriminate.
  - destruct (p_status p); simpl; split; intros H;
      try discriminate; try contradiction; auto.
  - intros r Hst Hr Heq. rewrite Hst, Hr. simpl.
    eexists. split; [reflexivity|]. now apply num_or_balance.
Qed.

Lemma checkRefundStatus_balance_witness :
  exists rs,
    outcome (checkRefundStatus "INV-2024-004" seed_world)
    = Returned (RefundFound rs)
    /\ hasRefund rs = true
    /\ exists b, remainingBalance rs = Some b /\ (b == 0)%Q.
Proof.
  destruct (checkRefundStatus_balance seed_world "INV-2024-004"
              (mkPayment "INV-2024-004" (7999 # 100) refunded "credit_card"
                 (Some (7999 # 100)) (Some "Order cancelled by customer"))
              eq_refl)
    as (rs & Hrun & _ & Hhas & _ & Hzero).
  exists rs. rewrite Hrun. split; [reflexivity|].
  split; [apply Hhas; left; reflexivity|].
  apply (Hzero (7999 # 100)); reflexivity.
Defined.

(** ** C8: [requestRefund] refuses and never writes *)

(** C8. For every [requestRefund] call: the world after the call is the
    world before it, and nothing is yielded; the call returns a result; if
    the payment exists and its status is not [completed] the result has
    [success: false]; if an amount is requested (a requested amount of 0 is
    read by the code as no amount) and exceeds the amount of the payment,
    the result has [success: false]; and a result with [success: true] is
    the description of the simulated refund of a completed payment, for
    the requested amount or else the full amount, which does not exceed
    the original amount. *)
Theorem requestRefund_refuses_and_keeps_state w invoiceNumber amount reason :
  let r := requestRefund invoiceNumber amount reason w in
  world_after r = w
  /\ yielded r = []
  /\ exists res,
       outcome r = Returned res
       /\ (forall p, payments (db w) !! invoiceNumber = Some p ->
             p_status p <> completed -> success res = false)
       /\ (forall p a, payments (db w) !! invoiceNumber = Some p ->
             amount = Some a -> ~ (a == 0)%Q -> (p_amount p < a)%Q ->
             success res = false)
       /\ (success res = true ->
             exists p rq,
               payments (db w) !! invoiceNumber = Some p
               /\ p_status p = completed
               /\ res = RefundAccepted rq
               /\ rq_originalAmount rq = p_amount p
               /\ rq_refundAmount rq = num_or amount (p_amount p)
               /\ (rq_refundAmount rq <= p_amount p)%Q).
Proof.
  intros r. subst r. unfold requestRefund, payment_findUnique. run_unfold.
  destruct (payments (db w) !! invoiceNumber) as [p|] eqn:Hp; run_cbn.
  - destruct (bool_decide (p_status p = completed)) eqn:Hst; cbn [negb]; run_cbn.
    + apply bool_decide_eq_true_1 in Hst.
      destruct (Qlt_bool (p_amount p) (num_or amount (p_amount p))) eqn:Hlt;
        run_cbn.
      * split; [reflexivity|]. split; [reflexivity|].
        eexists. split; [reflexivity|]. simpl.
        repeat split; auto; discriminate.
      * split; [reflexivity|]. split; [reflexivity|].
        eexists. split; [reflexivity|]. simpl.
        assert (Hle : (num_or amount (p_amount p) <= p_amount p)%Q).
        { unfold Qlt_bool in Hlt. apply negb_false_iff in Hlt.
          now apply Qle_bool_iff in Hlt. }
        split; [intros q Hq Hne; congruence|]. split.
        -- intros q a Hq Ha Hnz Hgt. exfalso.
           inversion Hq; subst q. subst amount. unfold num_or in Hle.
           destruct (Qeq_bool a 0) eqn:Hz.
           ++ apply Qeq_bool_iff in Hz. contradiction.
           ++ lra.
        -- intros _. exists p. eexists. repeat split; eauto.
    + apply bool_decide_eq_false_1 in Hst.
      split; [reflexivity|]. split; [reflexivity|].
      eexists. split; [reflexivity|]. simpl.
      repeat split; auto; discriminate.
  - split; [reflexivity|]. split; [reflexivity|].
    eexists. split; [reflexivity|]. simpl.
    repeat split; try discriminate.
Qed.

Lemma requestRefund_refuses_and_keeps_state_witness :
  world_after (requestRefund "INV-2024-SUB-001" (Some (50 # 1)) "changed my mind"
                 seed_world) = seed_world
  /\ (exists res,
        outcome (requestRefund "INV-2024-SUB-001" (Some (50 # 1)) "changed my mind"
                   seed_world) = Returned res
        /\ success res = false)
  /\ (exists res,
        outcome (requestRefund "INV-2024-004" None "changed my mind" seed_world)
        = Returned res
        /\ success res = false).
Proof.
  destruct (requestRefund_refuses_and_keeps_state seed_world "INV-2024-SUB-001"
              (Some (50 # 1)) "changed my mind")
    as (Hw & _ & res & Hres & _ & Hover & _).
  destruct (requestRefund_refuses_and_keeps_state seed_world "INV-2024-004"
              None "changed my mind")
    as (_ & _ & res' & Hres' & Hstatus & _).
  split; [exact Hw|]. split.
  - exists res. split; [exact Hres|].
    apply (Hover (mkPayment "INV-2024-SUB-001" (2999 # 100) completed
                    "credit_card" None None) (50 # 1)).
    + reflexivity.
    + reflexivity.
    + intros H. discriminate H.
    + reflexivity.
  - exists res'. split; [exact Hres'|].
    apply (Hstatus (mkPayment "INV-2024-004" (7999 # 100) refunded "credit_card"
                      (Some (7999 # 100)) (Some "Order cancelled by customer"))).
    + reflexivity.
    + discriminate.
Defined.

(** ** ConversationService runs *)

Lemma bind_run {A B} (m : Run A) (k : A -> Run B) w evs w1 a :
  m w = mkRes evs w1 (Returned a) ->
  bind m k w
  = mkRes (evs ++ yielded (k a w1)) (world_after (k a w1)) (outcome (k a w1)).
Proof. intros H. unfold bind. rewrite H. reflexivity. Qed.

Lemma res_eta {A} (r : Res A) :
  r = mkRes (yielded r) (world_after r) (outcome r).
Proof. now destruct r. Qed.

Lemma message_findMany_run conversationId n w :
  message_findMany conversationId None n w
  = mkRes [] w (Returned (take n (conversation_messages conversationId w))).
Proof.
  unfold message_findMany, conversation_messages. run_unfold.
  do 2 f_equal. f_equal. apply List.filter_ext. intros m.
  now rewrite andb_true_r.
Qed.

Lemma message_create_run conversationId r text agent calls results w c :
  conversations (db w) !! conversationId = Some c ->
  message_create conversationId r text agent calls results w
  = mkRes []
      (mkWorld
         (mkDb (conversations (db w))
               (messages (db w)
                  ++ [mkMessageRow (gen_id "msg_" (next_id (db w))) conversationId
                        r text agent calls results (now w)])
               (payments (db w)) (S (next_id (db w))))
         (llm_log w) (now w))
      (Returned (mkMessageRow (gen_id "msg_" (next_id (db w))) conversationId
                   r text agent calls results (now w))).
Proof.
  intros Hc. unfold message_create. run_unfold. rewrite Hc. reflexivity.
Qed.

Lemma conversation_update_run id f w c :
  conversations (db w) !! id = Some c ->
  conversation_update id f w
  = mkRes []
      (mkWorld (mkDb (<[id := f c]> (conversations (db w))) (messages (db w))
                     (payments (db w)) (next_id (db w)))
               (llm_log w) (now w))
      (Returned (f c)).
Proof.
  intros Hc. unfold conversation_update. run_unfold. rewrite Hc. reflexivity.
Qed.

Lemma addMessage_run input w c :
  conversations (db w) !! in_conversationId input = Some c ->
  addMessage input w
  = mkRes [] (appended input c w) (Returned (new_message input w)).
Proof.
  intros Hc. unfold addMessage.
  rewrite (bind_run _ _ _ _ _ _ (message_create_run _ _ _ _ _ _ _ _ Hc)).
  cbv beta.
  rewrite (bind_run _ _ _ _ _ _ (eq_refl : get_now _ = mkRes [] _ (Returned _))).
  cbv beta.
  erewrite bind_run by (apply conversation_update_run; exact Hc).
  reflexivity.
Qed.


Lemma updateConversation_run conversationId title w c :
  conversations (db w) !! conversationId = Some c ->
  updateConversation conversationId title w
  = mkRes []
      (mkWorld (mkDb (<[conversationId := titled c title]> (conversations (db w)))
                     (messages (db w)) (payments (db w)) (next_id (db w)))
               (llm_log w) (now w))
      (Returned (Some (titled c title))).
Proof.
  intros Hc. unfold updateConversation, conversation_update. run_unfold.
  rewrite Hc. run_unfold. reflexivity.
Qed.

Lemma updateConversation_run_absent conversationId title w :
  conversations (db w) !! conversationId = None ->
  updateConversation conversationId title w = mkRes [] w (Returned None).
Proof.
  intros Hc. unfold updateConversation, conversation_update. run_unfold.
  rewrite Hc. run_unfold. reflexivity.
Qed.

Lemma generateTitle_run_none conversationId w :
  first_user_message conversationId w = None ->
  generateTitle conversationId w = mkRes [] w (Returned "New Conversation").
Proof.
  intros Hf. unfold generateTitle. unfold bind at 1.
  rewrite message_findMany_run. run_cbn.
  unfold first_user_message in Hf. rewrite Hf.
  destruct (length _ =? 0)%nat; reflexivity.
Qed.

Lemma generateTitle_run_some conversationId w m c :
  first_user_message conversationId w = Some m ->
  conversations (db w) !! conversationId = Some c ->
  generateTitle conversationId w
  = mkRes []
      (mkWorld (mkDb (<[conversationId := titled c (title_of (m_content m))]>
                        (conversations (db w)))
                     (messages (db w)) (payments (db w)) (next_id (db w)))
               (llm_log w) (now w))
      (Returned (title_of (m_content m))).
Proof.
  intros Hf Hc. unfold generateTitle. unfold bind at 1.
  rewrite message_findMany_run. run_cbn.
  unfold first_user_message in Hf. rewrite Hf.
  destruct (length _ =? 0)%nat eqn:Hlen.
  - apply Nat.eqb_eq in Hlen. apply nil_length_inv in Hlen.
    rewrite Hlen in Hf. discriminate Hf.
  - unfold bind. rewrite (updateConversation_run _ _ _ _ Hc). reflexivity.
Qed.

(** ** C10: [generateTitle] without a user message *)

(** C10. For every conversation none of whose messages has the user role,
    and so for every conversation without messages, [generateTitle] returns
    the string 'New Conversation' and leaves the world, and with it the
    stored title of the conversation, as it was. *)
Theorem generateTitle_no_user_message conversationId w :
  Forall (fun m => m_conversationId m = conversationId -> m_role m <> user)
         (messages (db w)) ->
  generateTitle conversationId w = mkRes [] w (Returned "New Conversation").
Proof.
  intros H. apply generateTitle_run_none. unfold first_user_message.
  apply find_none_Forall.
  assert (Hall : Forall (fun m => bool_decide (m_role m = user) = false)
                        (conversation_messages conversationId w)).
  { unfold conversation_messages.
    induction H as [|m l Hm _ IH]; simpl; [constructor|].
    destruct (String.eqb (m_conversationId m) conversationId) eqn:Heq; [|exact IH].
    constructor; [|exact IH].
    apply String.eqb_eq in Heq. apply bool_decide_eq_false_2. auto. }
  revert Hall. generalize (conversation_messages conversationId w).
  intros l Hall. destruct Hall as [|x l Hx Hl]; simpl; [constructor|].
  constructor; [exact Hx|]. destruct Hl; simpl; constructor; auto.
Qed.

Lemma generateTitle_no_user_message_witness :
  Forall (fun m => m_conversationId m = "conv_0" -> m_role m <> user)
         (messages (db orphan_world))
  /\ generateTitle "conv_0" orphan_world
     = mkRes [] orphan_world (Returned "New Conversation").
Proof.
  assert (H : Forall (fun m => m_conversationId m = "conv_0" -> m_role m <> user)
                     (messages (db orphan_world))).
  { repeat constructor. intros _. discriminate. }
  split; [exact H|].
  exact (generateTitle_no_user_message "conv_0" orphan_world H).
Defined.

(** ** ChatService runs *)

Lemma streamChat_split model input w :
  let evs0 := fst (fst (opening input w)) in
  let id := snd (fst (opening input w)) in
  let r := streamChat_from model input id (snd (opening input w)) in
  streamChat model input w
  = mkRes (evs0 ++ yielded r) (world_after r) (outcome r).
Proof.
  unfold streamChat, opening.
  change (fun conversationId : string => _)
    with (fun conversationId => streamChat_from model input conversationId).
  destruct (falsy_id (conversationId_opt input)).
  - unfold createConversation, conversation_create. run_unfold. reflexivity.
  - run_unfold. reflexivity.
Qed.

Lemma opening_new_exists input w :
  falsy_id (conversationId_opt input) = true ->
  exists c, conversations (db (snd (opening input w))) !! snd (fst (opening input w))
            = Some c /\ c_title c = None.
Proof.
  intros H. unfold opening. rewrite H.
  unfold createConversation, conversation_create. run_unfold.
  eexists. rewrite lookup_insert_eq. split; reflexivity.
Qed.

Lemma generateTitle_returns conversationId w :
  exists title w',
    generateTitle conversationId w = mkRes [] w' (Returned title)
    /\ messages (db w') = messages (db w)
    /\ llm_log w' = llm_log w.
Proof.
  destruct (first_user_message conversationId w) as [m|] eqn:Hf.
  - destruct (conversations (db w) !! conversationId) as [c|] eqn:Hc.
    + rewrite (generateTitle_run_some _ _ _ _ Hf Hc). eauto.
    + unfold generateTitle. unfold bind at 1.
      rewrite message_findMany_run. run_cbn.
      unfold first_user_message in Hf. rewrite Hf.
      destruct (length _ =? 0)%nat; [eauto|].
      unfold bind. rewrite (updateConversation_run_absent _ _ _ Hc). eauto.
  - rewrite (generateTitle_run_none _ _ Hf). eauto.
Qed.

Lemma router_run_world model input conversationId c0 w0 :
  outcome (router_run model input conversationId c0 w0) = Returned tt
  /\ db (world_after (router_run model input conversationId c0 w0))
     = db (w_user input conversationId c0 w0)
  /\ now (world_after (router_run model input conversationId c0 w0)) = now w0.
Proof.
  unfold router_run.
  destruct (processMessage_shape model
              (mkAgentContext (in_userId input) conversationId
                 (history_messages (history input conversationId c0 w0)))
              (w_user input conversationId c0 w0))
    as (evs & w2 & Hrun & Hdb & Hnow & _).
  rewrite Hrun. run_cbn. auto.
Qed.

Lemma streamChat_from_run model input conversationId c0 w0 :
  conversations (db w0) !! conversationId = Some c0 ->
  streamChat_from model input conversationId w0
  = mkRes (yielded (router_run model input conversationId c0 w0)
             ++ [Done (ChatDone conversationId
                         (m_id (saved_message model input conversationId c0 w0))
                         (agentType (collected model input conversationId c0 w0))
                         (fullResponse (collected model input conversationId c0 w0)))])
          (w_final model input conversationId c0 w0) (Returned tt).
Proof.
  intros Hc. unfold streamChat_from.
  rewrite (bind_run _ _ _ _ _ _
             (addMessage_run (user_input conversationId input) w0 c0 Hc)).
  fold (w_user input conversationId c0 w0). unfold getMessages.
  rewrite (bind_run _ _ _ _ _ _
             (message_findMany_run conversationId 50
                (w_user input conversationId c0 w0))).
  fold (history input conversationId c0 w0).
  destruct (router_run_world model input conversationId c0 w0)
    as (Hout & Hdb & Hnow).
  assert (Hrelay :
    relay (processMessage model
             (mkAgentContext (in_userId input) conversationId
                (history_messages (history input conversationId c0 w0))))
          (mkCollected "" support []) (w_user input conversationId c0 w0)
    = mkRes (yielded (router_run model input conversationId c0 w0))
            (world_after (router_run model input conversationId c0 w0))
            (Returned (collected model input conversationId c0 w0))).
  { unfold relay. fold (router_run model input conversationId c0 w0).
    rewrite Hout. reflexivity. }
  rewrite (bind_run _ _ _ _ _ _ Hrelay).
  assert (Hc2 : conversations
                  (db (world_after (router_run model input conversationId c0 w0)))
                  !! in_conversationId
                       (assistant_input conversationId
                          (collected model input conversationId c0 w0))
                = Some (touched c0 (now w0))).
  { rewrite Hdb. unfold w_user, appended. run_cbn.
    cbn [in_conversationId user_input assistant_input].
    apply lookup_insert_eq. }
  rewrite (bind_run _ _ _ _ _ _ (addMessage_run _ _ _ Hc2)).
  fold (saved_message model input conversationId c0 w0).
  fold (w_assistant model input conversationId c0 w0).
  assert (Htitle :
    (if (length (history input conversationId c0 w0) =? 1)%nat
     then generateTitle conversationId ;;; ret tt
     else ret tt) (w_assistant model input conversationId c0 w0)
    = mkRes [] (w_final model input conversationId c0 w0) (Returned tt)).
  { unfold w_final.
    destruct (length (history input conversationId c0 w0) =? 1)%nat;
      [|reflexivity].
    destruct (generateTitle_returns conversationId
                (w_assistant model input conversationId c0 w0))
      as (title & w' & Ht & _).
    rewrite (bind_run _ _ _ _ _ _ Ht), Ht. reflexivity. }
  rewrite (bind_run _ _ _ _ _ _ Htitle).
  reflexivity.
Qed.

Lemma conversation_messages_w_user input conversationId c0 w0 :
  conversation_messages conversationId (w_user input conversationId c0 w0)
  = conversation_messages conversationId w0
      ++ [new_message (user_input conversationId input) w0].
Proof.
  unfold conversation_messages, w_user, appended. run_cbn.
  rewrite List.filter_app. simpl. now rewrite String.eqb_refl.
Qed.

Lemma history_singleton input conversationId c0 w0 :
  length (history input conversationId c0 w0) = 1%nat ->
  conversation_messages conversationId w0 = []
  /\ history input conversationId c0 w0
     = [new_message (user_input conversationId input) w0].
Proof.
  unfold history. rewrite conversation_messages_w_user.
  destruct (conversation_messages conversationId w0) as [|x l]; [auto|].
  destruct l; simpl; discriminate.
Qed.

(** ** C9: when, and to what, the title is set *)

Lemma title_of_short (text : string) :
  (String.length text <= 50)%nat -> title_of text = text.
Proof.
  intros H. unfold title_of.
  destruct (50 <? String.length text)%nat eqn:E; [|reflexivity].
  apply Nat.ltb_lt in E. lia.
Qed.

Lemma title_of_long (text : string) :
  (50 < String.length text)%nat ->
  title_of text = substring 0 47 text +:+ "...".
Proof.
  intros H. unfold title_of. apply Nat.ltb_lt in H. now rewrite H.
Qed.

(** C9. For every streaming request whose conversation exists once it is
    opened: [streamChat] returns, and with [hist] the history that
    [getMessages] gives right after the user message is appended (its
    length is the one tested before the title is generated), the stored
    conversation afterwards is the timestamped conversation with its title
    set to the title derived from the request's message when [hist] has
    exactly one message, which is then the request's message itself, and
    with its title untouched otherwise.  The derived title is the message
    itself when it has at most 50 characters and its first 47 characters
    followed by '...' otherwise. *)
Theorem streamChat_title model input w c0 :
  let id := snd (fst (opening input w)) in
  let w0 := snd (opening input w) in
  conversations (db w0) !! id = Some c0 ->
  let hist := history input id c0 w0 in
  let r := streamChat model input w in
  outcome (getMessages id None None (w_user input id c0 w0)) = Returned hist
  /\ outcome r = Returned tt
  /\ conversations (db (world_after r)) !! id
     = Some (if (length hist =? 1)%nat
             then titled (touched c0 (now w0)) (title_of (in_message input))
             else touched c0 (now w0))
  /\ (length hist = 1%nat -> map m_content hist = [in_message input])
  /\ ((String.length (in_message input) <= 50)%nat ->
        title_of (in_message input) = in_message input)
  /\ ((50 < String.length (in_message input))%nat ->
        title_of (in_message input)
        = substring 0 47 (in_message input) +:+ "...").
Proof.
  intros id w0 Hc hist r. subst r.
  rewrite streamChat_split. fold id. fold w0. run_cbn.
  rewrite (streamChat_from_run model input id c0 w0 Hc). run_cbn.
  split; [unfold getMessages; now rewrite message_findMany_run|].
  split; [reflexivity|].
  destruct (router_run_world model input id c0 w0) as (_ & Hdb & Hnow).
  assert (Hlook : conversations (db (w_assistant model input id c0 w0)) !! id
                  = Some (touched c0 (now w0))).
  { unfold w_assistant, appended. run_cbn.
    cbn [in_conversationId assistant_input]. rewrite lookup_insert_eq, Hnow.
    reflexivity. }
  split; [|split; [|split; [apply title_of_short | apply title_of_long]]].
  - unfold w_final. fold hist.
    destruct (length hist =? 1)%nat eqn:Hlen; [|exact Hlook].
    apply Nat.eqb_eq in Hlen.
    destruct (history_singleton input id c0 w0 Hlen) as [Hnil Hhist].
    assert (Hfirst : first_user_message id (w_assistant model input id c0 w0)
                     = Some (new_message (user_input id input) w0)).
    { unfold first_user_message, conversation_messages, w_assistant, appended.
      run_cbn. rewrite Hdb. rewrite List.filter_app.
      change (List.filter _ (messages (db (w_user input id c0 w0))))
        with (conversation_messages id (w_user input id c0 w0)).
      rewrite conversation_messages_w_user, Hnil. reflexivity. }
    rewrite (generateTitle_run_some _ _ _ _ Hfirst Hlook). run_cbn.
    now rewrite lookup_insert_eq.
  - intros Hlen. subst hist.
    destruct (history_singleton input id c0 w0 Hlen) as [_ ->]. reflexivity.
Qed.

Lemma streamChat_title_witness :
  c_title <$> conversations (db (world_after (streamChat hello_model long_message
                                                open_world))) !! "conv_0"
  = Some (Some "I was charged twice for my subscription this mo...").
Proof.
  pose proof (streamChat_title hello_model long_message open_world
                (mkConversationRow "conv_0" "user_demo" None None 5 5) eq_refl)
    as (_ & _ & Hlook & _).
  change (snd (fst (opening long_message open_world))) with "conv_0" in Hlook.
  rewrite Hlook. reflexivity.
Defined.

(** ** C1: the chunks of a streaming request *)

Lemma collect_loop (body : list StreamChunk) (s : Collected) :
  Forall loop_chunk body ->
  fullResponse (fold_left collect body s) = fullResponse s +:+ deltas body
  /\ agentType (fold_left collect body s) = agentType s.
Proof.
  intros H. revert s. induction H as [|c body Hc _ IH]; intros s.
  - simpl. now rewrite append_empty_r.
  - destruct c; simpl in Hc; try contradiction; simpl;
      destruct (IH (collect s ltac:(first [exact (ToolCall tool_name args)
                                          | exact (ToolResult tool_name result)
                                          | exact (TextDelta delta)])))
        as [Hf Ha];
      simpl in Hf, Ha; rewrite Hf, Ha, ?append_assoc_str; auto.
Qed.

Lemma str_or_same (a : string) : str_or a a = a.
Proof. unfold str_or. now destruct (String.eqb a ""). Qed.

Lemma w_final_messages model input conversationId c0 w0 :
  messages (db (w_final model input conversationId c0 w0))
  = messages (db (world_after (router_run model input conversationId c0 w0)))
      ++ [saved_message model input conversationId c0 w0].
Proof.
  unfold w_final.
  destruct (length _ =? 1)%nat.
  - destruct (generateTitle_returns conversationId
                (w_assistant model input conversationId c0 w0))
      as (title & w' & Ht & Hm & _).
    rewrite Ht. run_cbn. rewrite Hm. reflexivity.
  - reflexivity.
Qed.

(** C1, as the spec states it, fails on the first message of a new
    conversation: the stream has two [done] chunks, and the responder's own
    [done] payload is among the chunks relayed to the caller. *)
Lemma streamChat_relays_responder_done :
  let evs := yielded (streamChat hello_model first_message seed_world) in
  count_type t_done evs <> 1%nat
  /\ In (Done (AgentDone "You have no orders."
                 [mkToolRecord "getUserOrders" (Some "{}") (Some "[]")]))
        evs.
Proof.
  split.
  - vm_compute. discriminate.
  - vm_compute. do 8 right. left. reflexivity.
Qed.

(** C1 (amended). For every streaming request whose conversation exists
    once it is opened and whose stream carries no [error] chunk:
    [streamChat] returns; its chunks are the chunk announcing a new
    conversation, if one was created, then every chunk of the router in
    order, the last of which is the responder's [done] chunk and the only
    [done] chunk among them, and then one closing [done] chunk of the chat
    service, so the stream has exactly two [done] chunks and ends with the
    service's own; that chunk carries the conversation id, the id of the
    assistant message just stored, the agent of the routing chunk and the
    full text, which is the stored content and the concatenation of the
    text deltas. *)
Theorem streamChat_terminal_done model input w c0 :
  let id := snd (fst (opening input w)) in
  let w0 := snd (opening input w) in
  let r := streamChat model input w in
  conversations (db w0) !! id = Some c0 ->
  Forall (fun c => chunk_type c <> t_error) (yielded r) ->
  exists relayed text calls saved category name reason confidence,
    outcome r = Returned tt
    /\ yielded (router_run model input id c0 w0)
       = relayed ++ [Done (AgentDone text calls)]
    /\ yielded r
       = fst (fst (opening input w))
           ++ (relayed ++ [Done (AgentDone text calls)])
           ++ [Done (ChatDone id (m_id saved) category text)]
    /\ count_type t_done (fst (fst (opening input w)) ++ relayed) = 0%nat
    /\ count_type t_done (yielded r) = 2%nat
    /\ In (Routing category name reason confidence) relayed
    /\ text = deltas relayed
    /\ last (messages (db (world_after r))) = Some saved
    /\ m_conversationId saved = id
    /\ m_role saved = assistant
    /\ m_content saved = text
    /\ m_agentType saved = Some category.
Proof.
  intros id w0 r Hc Hne. subst r.
  rewrite streamChat_split in Hne |- *. fold id in Hne |- *. fold w0 in Hne |- *.
  rewrite (streamChat_from_run model input id c0 w0 Hc) in Hne |- *.
  run_cbn. cbn [yielded] in Hne.
  unfold saved_message, collected.
  destruct (processMessage_shape model
              (mkAgentContext (in_userId input) id
                 (history_messages (history input id c0 w0)))
              (w_user input id c0 w0))
    as (evs & w2 & Hrun & _ & _ & Hshape).
  assert (Hmsgs : messages (db (w_final model input id c0 w0))
                  = messages (db w2)
                      ++ [new_message
                            (assistant_input id
                               (fold_left collect evs (mkCollected "" support [])))
                            w2]).
  { rewrite w_final_messages. unfold saved_message, collected, router_run.
    rewrite Hrun. reflexivity. }
  unfold router_run in Hne |- *. rewrite Hrun in Hne |- *.
  run_cbn. cbn [yielded] in Hne.
  apply Forall_app in Hne as [_ Hne]. apply Forall_app in Hne as [Hne _].
  destruct Hshape as [[msg ->] | (decision & body & final & -> & Hbody & Hfinal)].
  { exfalso. inversion Hne as [|? ? _ Hne']; subst.
    inversion Hne' as [|? ? Herr _]; subst. now apply Herr. }
  destruct Hfinal as [Hfinal | Herr].
  2:{ exfalso. change (Thinking "Analyzing your request..." None
                         :: routed decision ++ body ++ [final])
        with ((Thinking "Analyzing your request..." None :: routed decision)
                ++ body ++ [final]) in Hne.
      apply Forall_app in Hne as [_ Hne]. apply Forall_app in Hne as [_ Hne].
      inversion Hne; subst. contradiction. }
  set (calls := match final with
                | Done (AgentDone _ calls) => calls
                | _ => []
                end) in Hfinal.
  clearbody calls. subst final.
  set (relayed := Thinking "Analyzing your request..." None
                    :: routed decision ++ body).
  assert (Hevs : Thinking "Analyzing your request..." None
                   :: routed decision ++ body ++ [Done (AgentDone (deltas body) calls)]
                 = relayed ++ [Done (AgentDone (deltas body) calls)]).
  { unfold relayed. simpl. rewrite <- ?app_assoc. reflexivity. }
  rewrite Hevs in *. clear Hevs.
  assert (Hdeltas : deltas relayed = deltas body) by reflexivity.
  assert (Hcol : fullResponse (fold_left collect
                     (relayed ++ [Done (AgentDone (deltas body) calls)])
                     (mkCollected "" support [])) = deltas body
                 /\ agentType (fold_left collect
                     (relayed ++ [Done (AgentDone (deltas body) calls)])
                     (mkCollected "" support [])) = a_type (fst decision)).
  { rewrite fold_left_app. unfold relayed. simpl.
    destruct (collect_loop body
                (mkCollected "" (a_type (fst decision)) []) Hbody) as [Hf Ha].
    simpl in Hf, Ha. rewrite Hf, Ha, append_nil_l, str_or_same. auto. }
  destruct Hcol as [Hfull Hagent].
  assert (Hcount : count_type t_done (fst (fst (opening input w)) ++ relayed)
                   = 0%nat).
  { rewrite count_type_app. unfold relayed.
    change (Thinking "Analyzing your request..." None :: routed decision ++ body)
      with ((Thinking "Analyzing your request..." None :: routed decision) ++ body).
    rewrite count_type_app, (count_type_loop t_done body Hbody) by auto.
    unfold opening. destruct (falsy_id (conversationId_opt input)); reflexivity. }
  set (col := fold_left collect
                (relayed ++ [Done (AgentDone (deltas body) calls)])
                (mkCollected "" support [])) in *.
  exists relayed, (deltas body), calls, (new_message (assistant_input id col) w2),
    (a_type (fst decision)).
  eexists _, _, _.
  split; [reflexivity|]. split; [reflexivity|].
  split; [rewrite Hfull, Hagent; reflexivity|].
  split; [exact Hcount|].
  split.
  { rewrite Hfull, Hagent.
    rewrite app_assoc, app_assoc, count_type_app, count_type_app, Hcount.
    reflexivity. }
  split; [unfold relayed, routed; simpl; right; left; reflexivity|].
  split; [now rewrite Hdeltas|].
  rewrite Hmsgs. rewrite last_snoc.
  unfold new_message, assistant_input.
  cbn [m_conversationId m_role m_content m_agentType in_conversationId in_role
       in_content in_agentType].
  rewrite Hfull, Hagent. repeat split; reflexivity.
Qed.

Lemma streamChat_terminal_done_witness :
  count_type t_done (yielded (streamChat hello_model first_message seed_world))
  = 2%nat
  /\ outcome (streamChat hello_model first_message seed_world) = Returned tt.
Proof.
  assert (Hne : Forall (fun c => chunk_type c <> t_error)
                  (yielded (streamChat hello_model first_message seed_world))).
  { vm_compute. repeat constructor; discriminate. }
  destruct (streamChat_terminal_done hello_model first_message seed_world
              (mkConversationRow "conv_0" "user_demo" None None
                 1700000000000 1700000000000)
              eq_refl Hne)
    as (relayed & text & calls & saved & category & name & reason & confidence
        & Hout & _ & _ & _ & Hcount & _).
  split; [exact Hcount | exact Hout].
Defined.

(** ** C2: a failed responder in streaming mode *)

(** Whatever the router yields, [streamChat] goes on to store an assistant
    message: nothing in it looks at an [error] chunk. *)
Lemma streamChat_always_stores_assistant model input w c0 :
  let id := snd (fst (opening input w)) in
  let w0 := snd (opening input w) in
  conversations (db w0) !! id = Some c0 ->
  exists saved,
    last (messages (db (world_after (streamChat model input w)))) = Some saved
    /\ m_role saved = assistant
    /\ m_conversationId saved = id.
Proof.
  intros id w0 Hc. rewrite streamChat_split. fold id. fold w0. run_cbn.
  rewrite (streamChat_from_run model input id c0 w0 Hc). run_cbn.
  rewrite w_final_messages, last_snoc. eexists. split; [reflexivity|].
  split; reflexivity.
Qed.

(** C2 fails on the code.  On the first message of a new conversation,
    with a capability whose classification call is rejected, the stream
    carries the [error] chunk and then a [done] chunk, and the database
    holds, after the user's message, an assistant message with empty
    content, and the conversation has a title. *)
Theorem streamChat_error_stores_assistant :
  let r := streamChat failing_model first_message seed_world in
  yielded r
  = [Thinking "Starting new conversation..." (Some "conv_0");
     Thinking "Analyzing your request..." None;
     Error "model unavailable";
     Done (ChatDone "conv_0" "msg_2" support "")]
  /\ map (fun m => (m_role m, m_content m, m_agentType m))
         (messages (db (world_after r)))
     = [(user, "What are my recent orders?", None);
        (assistant, "", Some support)]
  /\ c_title <$> conversations (db (world_after r)) !! "conv_0"
     = Some (Some "What are my recent orders?").
Proof. vm_compute. repeat split. Qed.

(** The synchronous path on the same request: the rejected call is thrown
    on to the caller, only the user's message is stored and no title is
    set. *)
Lemma chat_error_keeps_user_message_only :
  let r := chat failing_model first_message seed_world in
  outcome r = Threw (ErrorObject "model unavailable")
  /\ map (fun m => (m_role m, m_content m)) (messages (db (world_after r)))
     = [(user, "What are my recent orders?")]
  /\ c_title <$> conversations (db (world_after r)) !! "conv_0" = Some None.
Proof. vm_compute. repeat split. Qed.

(** * Further properties *)

(** ** The router and the responders *)

Lemma route_decision_known model context w w1 decision :
  route model context w = mkRes [] w1 (Returned decision) ->
  fst decision = supportAgent \/ fst decision = orderAgent
  \/ fst decision = billingAgent.
Proof.
  intros Hr. destruct (last_user_message context) as [m|] eqn:Hm.
  - rewrite (route_run_classify _ _ _ _ Hm) in Hr.
    destruct (llm_generateText model (classify_request context m)) as [result|e];
      inversion Hr; subst. apply decision_agent_known.
  - rewrite (route_run_no_user _ _ _ Hm) in Hr. inversion Hr; subst. auto.
Qed.

(** X1. Every run of [processMessage] returns without throwing, leaves the
    database alone, and ends with exactly one terminal chunk: its last
    chunk is a [done] or an [error] chunk, and no chunk before it is. *)
Theorem processMessage_ends_once model context w :
  let r := processMessage model context w in
  outcome r = Returned tt
  /\ db (world_after r) = db w
  /\ exists body final,
       yielded r = body ++ [final]
       /\ (chunk_type final = t_done \/ chunk_type final = t_error)
       /\ count_type t_done body = 0%nat
       /\ count_type t_error body = 0%nat.
Proof.
  intros r. subst r.
  destruct (processMessage_shape model context w)
    as (evs & w1 & Hrun & Hdb & _ & Hshape).
  rewrite Hrun. run_cbn. split; [reflexivity|]. split; [exact Hdb|].
  destruct Hshape as [[msg ->] | (decision & body & final & -> & Hbody & Hfinal)].
  - exists [Thinking "Analyzing your request..." None], (Error msg).
    repeat split; auto.
  - exists (Thinking "Analyzing your request..." None :: routed decision ++ body),
      final.
    split; [simpl; rewrite <- ?app_assoc; reflexivity|].
    split; [destruct Hfinal as [-> | ->]; auto|].
    change (Thinking "Analyzing your request..." None :: routed decision ++ body)
      with ((Thinking "Analyzing your request..." None :: routed decision) ++ body).
    rewrite !count_type_app, !(count_type_loop _ body Hbody) by auto.
    split; reflexivity.
Qed.

(** X2. Every [routing] chunk of [processMessage] names one of the three
    responders that [getAgent] knows, never the router itself, and carries
    that responder's display name, whatever agent the capability's
    decision names. *)
Theorem processMessage_routing_names_responder model context w :
  Forall names_responder (yielded (processMessage model context w)).
Proof.
  destruct (route_shape model context w) as (w1 & o & Hr & _).
  destruct o as [decision|e].
  - rewrite (processMessage_run_routed _ _ _ _ _ Hr). run_cbn.
    constructor; [exact I|]. unfold routed. constructor.
    + simpl. destruct (route_decision_known _ _ _ _ _ Hr) as [-> | [-> | ->]];
        eexists; repeat split; reflexivity.
    + constructor; [exact I|]. unfold responder_tail. apply Forall_app. split.
      * eapply Forall_impl; [apply part_chunks_loop|].
        intros c Hc. destruct c; simpl in Hc; try contradiction; exact I.
      * constructor; [|constructor]. destruct (st_thrown _); exact I.
  - rewrite (processMessage_run_failed _ _ _ _ _ Hr). run_cbn.
    repeat constructor.
Qed.

(** X3. When the classification call resolves with a [route] tool call
    that names a responder, [processMessage] announces that responder: the
    [routing] chunk carries the named agent, its display name and the
    reasoning and confidence of the decision unchanged, and the chunks after
    the second [thinking] chunk are those of that responder's run. *)
Theorem processMessage_follows_decision model context w m result tc agent :
  last_user_message context = Some m ->
  llm_generateText model (classify_request context m) = Returned result ->
  first_toolCall result = Some tc ->
  toolName tc = "route" ->
  getAgent (rr_agent (rtc_args tc)) = Some agent ->
  yielded (processMessage model context w)
  = [Thinking "Analyzing your request..." None;
     Routing (rr_agent (rtc_args tc)) (a_name agent)
             (rr_reasoning (rtc_args tc)) (rr_confidence (rtc_args tc));
     Thinking ("Connecting you with " +:+ a_name agent +:+ "...") None]
      ++ responder_tail model agent context
  /\ llm_log (world_after (processMessage model context w))
     = llm_log w ++ [GenerateTextCall (classify_request context m);
                     StreamTextCall (agent_request agent context)].
Proof.
  intros Hm Hgen Htc Hname Hagent.
  assert (Hdec : decision_of result = (agent, rtc_args tc)).
  { unfold decision_of. rewrite Htc, Hname, Hagent. reflexivity. }
  pose proof (route_run_classify model context m w Hm) as Hroute.
  rewrite Hgen, Hdec in Hroute.
  rewrite (processMessage_run_routed _ _ _ _ _ Hroute). run_cbn.
  assert (Htype : a_type agent = rr_agent (rtc_args tc)).
  { destruct (rr_agent (rtc_args tc)); simpl in Hagent; inversion Hagent;
      reflexivity. }
  unfold routed. run_cbn. rewrite Htype. split; [reflexivity|].
  unfold logged. run_cbn. now rewrite <- app_assoc.
Qed.

Lemma processMessage_follows_decision_witness :
  yielded (processMessage hello_model sample_context seed_world)
  = [Thinking "Analyzing your request..." None;
     Routing order "Order Agent" "asks about orders" (9 # 10);
     Thinking "Connecting you with Order Agent..." None]
      ++ responder_tail hello_model orderAgent sample_context.
Proof.
  exact (proj1 (processMessage_follows_decision hello_model sample_context
                  seed_world
                  (mkCoreMessage user (TextContent "What are my recent orders?"))
                  (mkGenerateTextResult
                     (Some [mkRouteToolCall "route"
                              (mkRoutingResult order (9 # 10) "asks about orders")]))
                  (mkRouteToolCall "route"
                     (mkRoutingResult order (9 # 10) "asks about orders"))
                  orderAgent eq_refl eq_refl eq_refl eq_refl eq_refl)).
Defined.

(** X4. When the classification call is rejected, [processMessage] yields
    the opening [thinking] chunk and one [error] chunk with the message of
    the error, and stops: no [routing] chunk, and no call to a responder
    (the classification call is the only entry added to the call log). *)
Theorem processMessage_classification_rejected model context w m e :
  last_user_message context = Some m ->
  llm_generateText model (classify_request context m) = Threw e ->
  processMessage model context w
  = mkRes [Thinking "Analyzing your request..." None; Error (error_message e)]
          (mkWorld (db w)
                   (llm_log w ++ [GenerateTextCall (classify_request context m)])
                   (now w))
          (Returned tt).
Proof.
  intros Hm Hgen.
  pose proof (route_run_classify model context m w Hm) as Hroute.
  rewrite Hgen in Hroute.
  exact (processMessage_run_failed _ _ _ _ _ Hroute).
Qed.

Lemma processMessage_classification_rejected_witness :
  yielded (processMessage failing_model sample_context seed_world)
  = [Thinking "Analyzing your request..." None; Error "model unavailable"].
Proof.
  rewrite (processMessage_classification_rejected failing_model sample_context
             seed_world
             (mkCoreMessage user (TextContent "What are my recent orders?"))
             (ErrorObject "model unavailable") eq_refl eq_refl).
  reflexivity.
Defined.

(** X5. When the responder's stream throws after some parts, the chunks of
    those parts are still forwarded, in order, and then one [error] chunk
    closes the run in place of [done]; its message is the message of a
    thrown [Error] and 'An unexpected error occurred' for any other thrown
    value. *)
Theorem processMessage_responder_failure model context w w1 decision e :
  route model context w = mkRes [] w1 (Returned decision) ->
  st_thrown (llm_streamText model (agent_request (fst decision) context))
  = Some e ->
  let r := processMessage model context w in
  yielded r
  = Thinking "Analyzing your request..." None
      :: routed decision
      ++ part_chunks (fullStream (llm_streamText model
                                    (agent_request (fst decision) context)))
      ++ [Error (error_message e)]
  /\ count_type t_done (yielded r) = 0%nat
  /\ (forall message, e = ErrorObject message -> error_message e = message)
  /\ (e = ThrownValue -> error_message e = "An unexpected error occurred").
Proof.
  intros Hr He r. subst r.
  rewrite (processMessage_run_routed _ _ _ _ _ Hr). run_cbn.
  unfold responder_tail. rewrite He.
  split; [reflexivity|]. split.
  - change (Thinking "Analyzing your request..." None
              :: routed decision ++ ?x)
      with ((Thinking "Analyzing your request..." None :: routed decision) ++ x).
    rewrite !count_type_app.
    rewrite (count_type_loop t_done _ (part_chunks_loop _)) by auto.
    reflexivity.
  - split; [intros message ->; reflexivity | intros ->; reflexivity].
Qed.

Lemma processMessage_responder_failure_witness :
  yielded (processMessage breaking_model sample_context seed_world)
  = [Thinking "Analyzing your request..." None;
     Routing billing "Billing Agent" "asks about a refund" (8 # 10);
     Thinking "Connecting you with Billing Agent..." None;
     TextDelta "Let me ";
     Error "An unexpected error occurred"].
Proof.
  exact (proj1 (processMessage_responder_failure breaking_model sample_context
                  seed_world
                  (logged (GenerateTextCall
                             (classify_request sample_context
                                (mkCoreMessage user
                                   (TextContent "What are my recent orders?"))))
                          seed_world)
                  (billingAgent,
                   mkRoutingResult billing (8 # 10) "asks about a refund")
                  ThrownValue eq_refl eq_refl)).
Defined.

(** X6. [route] yields nothing, leaves the database alone, and calls the
    capability exactly once when the history has a user message (whatever
    the capability answers) and not at all otherwise. *)
Theorem route_calls_once model context w :
  let r := route model context w in
  yielded r = []
  /\ db (world_after r) = db w
  /\ llm_log (world_after r)
     = llm_log w
         ++ match last_user_message context with
            | Some m => [GenerateTextCall (classify_request context m)]
            | None => []
            end.
Proof.
  intros r. subst r. destruct (last_user_message context) as [m|] eqn:Hm.
  - rewrite (route_run_classify _ _ _ _ Hm). run_cbn. auto.
  - rewrite (route_run_no_user _ _ _ Hm). run_cbn. rewrite app_nil_r. auto.
Qed.

Lemma find_rev_last {A} (f : A -> bool) (pre post : list A) (x : A) :
  f x = true -> Forall (fun y => f y = false) post ->
  find f (rev (pre ++ x :: post)) = Some x.
Proof.
  intros Hx Hpost. rewrite rev_app_distr. simpl. rewrite <- !app_assoc.
  apply Forall_rev in Hpost. revert Hpost. generalize (rev post).
  intros l Hl. induction Hl as [|y l Hy _ IH]; simpl.
  - now rewrite Hx.
  - now rewrite Hy.
Qed.

(** X7. The message that [route] classifies is the most recent user
    message of the history: the user message after which no user message
    follows. *)
Theorem route_classifies_last_user_message context pre m post :
  ctx_messages context = pre ++ m :: post ->
  role m = user ->
  Forall (fun x => role x <> user) post ->
  last_user_message context = Some m.
Proof.
  intros Hmsgs Hm Hpost. unfold last_user_message. rewrite Hmsgs.
  apply find_rev_last.
  - now apply bool_decide_eq_true_2.
  - eapply Forall_impl; [exact Hpost|]. intros x Hx.
    now apply bool_decide_eq_false_2.
Qed.

Lemma route_classifies_last_user_message_witness :
  last_user_message two_users_context
  = Some (mkCoreMessage user (TextContent "Can I get a refund?")).
Proof.
  apply (route_classifies_last_user_message two_users_context
           [mkCoreMessage user (TextContent "Where is my order?");
            mkCoreMessage assistant (TextContent "It shipped yesterday.")]
           (mkCoreMessage user (TextContent "Can I get a refund?"))
           [mkCoreMessage assistant (TextContent "Let me check.")]).
  - reflexivity.
  - reflexivity.
  - repeat constructor. discriminate.
Defined.

(** X8. [BaseAgent.generateResponse] throws what a rejected call throws;
    otherwise it returns the text of the call, and its [toolCalls] are the
    records of all the steps in order, except that an empty list is
    reported as absent: the field is never an empty list. *)
Theorem generateResponse_toolCalls model agent context w :
  let r := generateResponse model agent context w in
  match llm_generateAgentText model (agent_request agent context) with
  | Threw e => outcome r = Threw e
  | Returned result =>
      exists response,
        outcome r = Returned response
        /\ ar_content response = at_text result
        /\ ar_toolCalls response <> Some []
        /\ match ar_toolCalls response with
           | Some calls => calls
           | None => []
           end = flat_map onStepFinish (at_steps result)
  end.
Proof.
  intros r. subst r. unfold generateResponse. run_unfold.
  destruct (llm_generateAgentText model (agent_request agent context))
    as [result|e]; run_cbn; [|reflexivity].
  eexists. split; [reflexivity|]. cbn [ar_content ar_toolCalls].
  split; [reflexivity|].
  destruct (flat_map onStepFinish (at_steps result)); simpl.
  - split; [discriminate | reflexivity].
  - split; [discriminate | reflexivity].
Qed.

(** ** ConversationService *)

Lemma length_append_str (a b : string) :
  String.length (a +:+ b) = (String.length a + String.length b)%nat.
Proof.
  induction a as [|x a IH]; [reflexivity|].
  rewrite append_cons. simpl. now rewrite IH.
Qed.

Lemma length_substring_0 (n : nat) (s : string) :
  (n <= String.length s)%nat -> String.length (substring 0 n s) = n.
Proof.
  revert s. induction n as [|n IH]; intros s Hn.
  - destruct s; reflexivity.
  - destruct s as [|x s]; simpl in Hn; [lia|]. simpl. rewrite IH; lia.
Qed.

(** X9. A title derived by [generateTitle] never has more than 50
    characters, and deriving a title from a title gives it back. *)
Theorem title_of_length (text : string) :
  (String.length (title_of text) <= 50)%nat
  /\ title_of (title_of text) = title_of text.
Proof.
  assert (H : (String.length (title_of text) <= 50)%nat).
  { unfold title_of. destruct (50 <? String.length text)%nat eqn:E.
    - apply Nat.ltb_lt in E.
      rewrite length_append_str, length_substring_0 by lia. simpl. lia.
    - apply Nat.ltb_ge in E. exact E. }
  split; [exact H|]. now apply title_of_short.
Qed.

(** X10. [generateTitle] looks at the first two messages of the
    conversation only: when neither is a user message it returns 'New
    Conversation' and changes nothing, even if a user message follows
    later. *)
Theorem generateTitle_first_two_only conversationId w :
  Forall (fun m => m_role m <> user)
         (take 2 (conversation_messages conversationId w)) ->
  generateTitle conversationId w = mkRes [] w (Returned "New Conversation").
Proof.
  intros H. apply generateTitle_run_none. unfold first_user_message.
  apply find_none_Forall. eapply Forall_impl; [exact H|].
  intros m Hm. now apply bool_decide_eq_false_2.
Qed.

Lemma generateTitle_first_two_only_witness :
  In user (map m_role (conversation_messages "conv_0" late_user_world))
  /\ generateTitle "conv_0" late_user_world
     = mkRes [] late_user_world (Returned "New Conversation").
Proof.
  split; [right; right; left; reflexivity|].
  apply (generateTitle_first_two_only "conv_0" late_user_world).
  repeat constructor; discriminate.
Defined.

(** X11. When one of the first two messages of an existing conversation is
    a user message, [generateTitle] returns the title derived from the
    first such message and stores it: [getConversation] then gives the
    conversation with that title and its other fields as before; the
    messages, the payments and every other conversation are untouched. *)
Theorem generateTitle_stores_title conversationId w m c :
  first_user_message conversationId w = Some m ->
  conversations (db w) !! conversationId = Some c ->
  let r := generateTitle conversationId w in
  outcome r = Returned (title_of (m_content m))
  /\ outcome (getConversation conversationId (world_after r))
     = Returned (Some (titled c (title_of (m_content m))))
  /\ messages (db (world_after r)) = messages (db w)
  /\ payments (db (world_after r)) = payments (db w)
  /\ forall other, other <> conversationId ->
       conversations (db (world_after r)) !! other = conversations (db w) !! other.
Proof.
  intros Hf Hc r. subst r. rewrite (generateTitle_run_some _ _ _ _ Hf Hc).
  run_cbn. split; [reflexivity|].
  unfold getConversation, conversation_findUnique. run_unfold.
  rewrite lookup_insert_eq. split; [reflexivity|].
  split; [reflexivity|]. split; [reflexivity|].
  intros other Hne. now rewrite lookup_insert_ne.
Qed.

Lemma generateTitle_stores_title_witness :
  outcome (generateTitle "conv_0" titled_world)
  = Returned "I was charged twice for my subscription this mo...".
Proof.
  exact (proj1 (generateTitle_stores_title "conv_0" titled_world
                  (mkMessageRow "msg_1" "conv_0" user
                     "I was charged twice for my subscription this month, can you check it?"
                     None None None 5%N)
                  (mkConversationRow "conv_0" "user_demo" None None 5 5)
                  eq_refl eq_refl)).
Defined.

(** X12. [updateConversation] never throws: a failed update is caught.  It
    returns [null] exactly when no conversation has the id, and then the
    world is as before. *)
Theorem updateConversation_never_throws conversationId title w :
  exists result w',
    updateConversation conversationId title w = mkRes [] w' (Returned result)
    /\ (result = None <-> conversations (db w) !! conversationId = None)
    /\ (result = None -> w' = w).
Proof.
  destruct (conversations (db w) !! conversationId) as [c|] eqn:Hc.
  - rewrite (updateConversation_run _ _ _ _ Hc). eexists _, _.
    split; [reflexivity|]. split; [split; discriminate | discriminate].
  - rewrite (updateConversation_run_absent _ _ _ Hc). eexists _, _.
    split; [reflexivity|]. split; [split; reflexivity | reflexivity].
Qed.

(** X13. After [addMessage] on an existing conversation,
    [getConversationWithMessages] gives the conversation with its
    [updatedAt] refreshed to the current time and its title kept, and all
    its earlier messages in order followed by the new message, which
    carries the fields of the input; the messages of other conversations
    are not affected. *)
Theorem addMessage_then_getConversationWithMessages input w c :
  conversations (db w) !! in_conversationId input = Some c ->
  let r := addMessage input w in
  let row := new_message input w in
  outcome r = Returned row
  /\ outcome (getConversationWithMessages (in_conversationId input) (world_after r))
     = Returned (Some (touched c (now w),
                       conversation_messages (in_conversationId input) w ++ [row]))
  /\ c_title (touched c (now w)) = c_title c
  /\ c_updatedAt (touched c (now w)) = now w
  /\ (m_role row, m_content row, m_agentType row, m_toolCalls row)
     = (in_role input, in_content input, in_agentType input, in_toolCalls input)
  /\ forall other, other <> in_conversationId input ->
       conversation_messages other (world_after r) = conversation_messages other w.
Proof.
  intros Hc r row. subst r row. rewrite (addMessage_run _ _ _ Hc). run_cbn.
  split; [reflexivity|]. split.
  - unfold getConversationWithMessages, appended. run_unfold.
    rewrite lookup_insert_eq. run_cbn. unfold conversation_messages.
    rewrite List.filter_app. simpl. rewrite String.eqb_refl. reflexivity.
  - split; [reflexivity|]. split; [reflexivity|]. split; [reflexivity|].
    intros other Hne. unfold conversation_messages, appended. run_cbn.
    rewrite List.filter_app. simpl.
    destruct (String.eqb (in_conversationId input) other) eqn:E.
    + apply String.eqb_eq in E. congruence.
    + now rewrite app_nil_r.
Qed.

Lemma addMessage_then_getConversationWithMessages_witness :
  outcome (getConversationWithMessages "conv_0"
             (world_after (addMessage hello_input orphan_world)))
  = Returned (Some (mkConversationRow "conv_0" "user_demo" None None 5
                                      1700000000000,
                    [mkMessageRow "msg_1" "conv_0" assistant "Welcome!"
                                  (Some support) None None 5%N;
                     mkMessageRow "msg_2" "conv_0" user "Hello" None None None
                                  1700000000000%N])).
Proof.
  exact (proj1 (proj2 (addMessage_then_getConversationWithMessages hello_input
                         orphan_world
                         (mkConversationRow "conv_0" "user_demo" None None 5 5)
                         eq_refl))).
Defined.

(** X14. [getMessages] without [before] returns the oldest messages of the
    conversation, in stored order, and at most [limit] of them; an absent
    limit and a limit of 0 both mean 50.  It changes nothing. *)
Theorem getMessages_window conversationId limit w :
  let n := match limit with Some (S k) => S k | _ => 50%nat end in
  exists result rest,
    getMessages conversationId limit None w = mkRes [] w (Returned result)
    /\ conversation_messages conversationId w = result ++ rest
    /\ (length result <= n)%nat
    /\ (rest <> [] -> length result = n)
    /\ Forall (fun m => m_conversationId m = conversationId) result.
Proof.
  intros n. unfold getMessages. fold n. rewrite message_findMany_run.
  exists (take n (conversation_messages conversationId w)),
    (drop n (conversation_messages conversationId w)).
  split; [reflexivity|]. split; [now rewrite take_drop|].
  split; [rewrite length_take; lia|]. split.
  - intros Hrest. rewrite length_take.
    destruct (Nat.le_gt_cases n (length (conversation_messages conversationId w)))
      as [Hle|Hgt]; [lia|].
    exfalso. apply Hrest. apply drop_ge. lia.
  - apply Forall_take. unfold conversation_messages.
    apply List.Forall_forall. intros m Hm. apply List.filter_In in Hm.
    now apply String.eqb_eq.
Qed.

(** X15. The history read back after [addMessage] ends with the new
    message only while the conversation holds fewer than 50 messages: from
    the 50th stored message on, [getMessages] returns the same 50 oldest
    messages as before and the new message is not among them. *)
Theorem addMessage_then_getMessages input w c :
  conversations (db w) !! in_conversationId input = Some c ->
  let before := take 50 (conversation_messages (in_conversationId input) w) in
  outcome (getMessages (in_conversationId input) None None
             (world_after (addMessage input w)))
  = Returned (if (length (conversation_messages (in_conversationId input) w) <? 50)%nat
              then before ++ [new_message input w]
              else before).
Proof.
  intros Hc before. subst before. rewrite (addMessage_run _ _ _ Hc). run_cbn.
  unfold getMessages. rewrite message_findMany_run. run_cbn. f_equal.
  assert (Hcm : conversation_messages (in_conversationId input) (appended input c w)
                = conversation_messages (in_conversationId input) w
                    ++ [new_message input w]).
  { unfold conversation_messages, appended. run_cbn.
    rewrite List.filter_app. simpl. now rewrite String.eqb_refl. }
  rewrite Hcm.
  destruct (length (conversation_messages (in_conversationId input) w) <? 50)%nat
    eqn:E.
  - apply Nat.ltb_lt in E.
    rewrite !take_ge by (rewrite ?length_app; simpl; lia). reflexivity.
  - apply Nat.ltb_ge in E. now rewrite take_app_le by lia.
Qed.

Lemma addMessage_then_getMessages_witness :
  outcome (getMessages "conv_0" None None
             (world_after (addMessage hello_input orphan_world)))
  = Returned [mkMessageRow "msg_1" "conv_0" assistant "Welcome!" (Some support)
                           None None 5%N;
              mkMessageRow "msg_2" "conv_0" user "Hello" None None None
                           1700000000000%N].
Proof.
  exact (addMessage_then_getMessages hello_input orphan_world
           (mkConversationRow "conv_0" "user_demo" None None 5 5) eq_refl).
Defined.


(** ** ChatService and its controller *)

Lemma opening_messages input w :
  messages (db (snd (opening input w))) = messages (db w)
  /\ payments (db (snd (opening input w))) = payments (db w).
Proof.
  unfold opening. destruct (falsy_id (conversationId_opt input)); [|auto].
  unfold createConversation, conversation_create. run_unfold. auto.
Qed.

(** X17. In every run of [streamChat] whose conversation exists once it is
    opened, whatever the router yields: the messages stored afterwards are
    the messages stored before, then the user's message with the text of
    the request, then one assistant message, both in the conversation of
    the request; the payments are untouched. *)
Theorem streamChat_persists_exchange model input w c0 :
  let id := snd (fst (opening input w)) in
  let w0 := snd (opening input w) in
  conversations (db w0) !! id = Some c0 ->
  let r := streamChat model input w in
  exists user_row assistant_row,
    messages (db (world_after r)) = messages (db w) ++ [user_row; assistant_row]
    /\ (m_conversationId user_row, m_role user_row, m_content user_row)
       = (id, user, in_message input)
    /\ (m_conversationId assistant_row, m_role assistant_row)
       = (id, assistant)
    /\ payments (db (world_after r)) = payments (db w).
Proof.
  intros id w0 Hc r. subst r.
  rewrite streamChat_split. fold id. fold w0. run_cbn.
  rewrite (streamChat_from_run model input id c0 w0 Hc). run_cbn.
  destruct (router_run_world model input id c0 w0) as (_ & Hdb & _).
  destruct (opening_messages input w) as [Hm Hp]. fold w0 in Hm, Hp.
  eexists _, _. split.
  - rewrite w_final_messages, Hdb. unfold w_user, appended. run_cbn.
    rewrite Hm, <- app_assoc. reflexivity.
  - split; [reflexivity|]. split; [reflexivity|].
    unfold w_final.
    destruct (length (history input id c0 w0) =? 1)%nat.
    + destruct (first_user_message id (w_assistant model input id c0 w0))
        as [m|] eqn:Hf.
      * destruct (conversations (db (w_assistant model input id c0 w0)) !! id)
          as [c|] eqn:Hc'.
        -- rewrite (generateTitle_run_some _ _ _ _ Hf Hc'). run_cbn.
           unfold w_assistant, appended. run_cbn. rewrite Hdb.
           unfold w_user, appended. run_cbn. exact Hp.
        -- exfalso. unfold w_assistant, appended in Hc'. revert Hc'. run_cbn.
           cbn [in_conversationId assistant_input].
           rewrite lookup_insert_eq. discriminate.
      * rewrite (generateTitle_run_none _ _ Hf). run_cbn.
        unfold w_assistant, appended. run_cbn. rewrite Hdb.
        unfold w_user, appended. run_cbn. exact Hp.
    + unfold w_assistant, appended. run_cbn. rewrite Hdb.
      unfold w_user, appended. run_cbn. exact Hp.
Qed.

Lemma streamChat_persists_exchange_witness :
  map (fun m => (m_role m, m_content m))
      (messages (db (world_after (streamChat breaking_model long_message
                                    open_world))))
  = [(user, "I was charged twice for my subscription this month, can you check it?");
     (assistant, "Let me ")].
Proof.
  destruct (streamChat_persists_exchange breaking_model long_message open_world
              (mkConversationRow "conv_0" "user_demo" None None 5 5) eq_refl)
    as (u & a & Hm & _).
  rewrite Hm. vm_compute in Hm. inversion Hm; subst. reflexivity.
Defined.

(** X18. Once a conversation holds 50 messages or more, the history that
    [streamChat] hands to the router is the 50 oldest messages stored
    before the request: the message of the request itself is not part of
    the context that is classified and answered. *)
Theorem streamChat_stale_history model input w c0 :
  let id := snd (fst (opening input w)) in
  let w0 := snd (opening input w) in
  conversations (db w0) !! id = Some c0 ->
  (50 <= length (conversation_messages id w0))%nat ->
  exists closing,
    yielded (streamChat model input w)
    = fst (fst (opening input w))
        ++ yielded (processMessage model
                      (mkAgentContext (in_userId input) id
                         (history_messages
                            (take 50 (conversation_messages id w0))))
                      (w_user input id c0 w0))
        ++ [closing].
Proof.
  intros id w0 Hc Hlen.
  rewrite streamChat_split. fold id. fold w0. run_cbn.
  rewrite (streamChat_from_run model input id c0 w0 Hc). run_cbn.
  eexists. unfold router_run.
  assert (Hh : history input id c0 w0 = take 50 (conversation_messages id w0)).
  { unfold history. rewrite conversation_messages_w_user.
    now rewrite take_app_le by lia. }
  rewrite Hh. reflexivity.
Qed.

Lemma streamChat_stale_history_witness :
  exists closing,
    yielded (streamChat hello_model follow_up crowded_world)
    = yielded (processMessage hello_model
                 (mkAgentContext "user_demo" "conv_0"
                    (replicate 50
                       (mkCoreMessage user (TextContent "Where is my order?"))))
                 (w_user follow_up "conv_0"
                    (mkConversationRow "conv_0" "user_demo" (Some "Orders")
                                       None 5 5)
                    crowded_world))
        ++ [closing].
Proof.
  destruct (streamChat_stale_history hello_model follow_up crowded_world
              (mkConversationRow "conv_0" "user_demo" (Some "Orders") None 5 5)
              eq_refl)
    as (closing & H).
  - vm_compute. lia.
  - exists closing. exact H.
Defined.

Lemma chat_split model input w :
  chat model input w
  = chat_from model input (snd (fst (opening input w))) (snd (opening input w)).
Proof.
  unfold chat, opening.
  change (fun conversationId : string => _)
    with (fun conversationId => chat_from model input conversationId).
  destruct (falsy_id (conversationId_opt input)).
  - unfold createConversation, conversation_create. run_unfold.
    match goal with |- _ = ?x => rewrite (res_eta x) at 1 end. reflexivity.
  - run_unfold. symmetry. apply res_eta.
Qed.

Lemma router_generateResponse_shape model context w :
  exists w2 o,
    router_generateResponse model context w = mkRes [] w2 o
    /\ db w2 = db w /\ now w2 = now w.
Proof.
  unfold router_generateResponse.
  destruct (route_shape model context w) as (w1 & o & Hr & Hdb & Hnow).
  destruct o as [decision|e].
  - rewrite (bind_run _ _ _ _ _ _ Hr). cbv beta.
    unfold generateResponse. run_unfold.
    destruct (llm_generateAgentText model (agent_request (fst decision) context));
      run_cbn; eauto.
  - unfold bind. rewrite Hr. eauto.
Qed.

Lemma router_sync_run_world model input conversationId c0 w0 :
  yielded (router_sync_run model input conversationId c0 w0) = []
  /\ db (world_after (router_sync_run model input conversationId c0 w0))
     = db (w_user input conversationId c0 w0)
  /\ now (world_after (router_sync_run model input conversationId c0 w0))
     = now w0.
Proof.
  unfold router_sync_run.
  destruct (router_generateResponse_shape model
              (mkAgentContext (in_userId input) conversationId
                 (history_messages (history input conversationId c0 w0)))
              (w_user input conversationId c0 w0))
    as (w2 & o & Hrun & Hdb & Hnow).
  rewrite Hrun. run_cbn. auto.
Qed.

Lemma chat_from_run model input conversationId c0 w0 :
  conversations (db w0) !! conversationId = Some c0 ->
  let rr := router_sync_run model input conversationId c0 w0 in
  chat_from model input conversationId w0
  = match outcome rr with
    | Threw e => mkRes [] (world_after rr) (Threw e)
    | Returned result =>
        let response := snd result in
        let agent := fst (fst result) in
        let ai := mkCreateMessageInput conversationId assistant
                    (ar_content response) (Some agent) (ar_toolCalls response)
                    None in
        let w3 := appended ai (touched c0 (now w0)) (world_after rr) in
        mkRes []
          (if (length (history input conversationId c0 w0) =? 1)%nat
           then world_after (generateTitle conversationId w3)
           else w3)
          (Returned (mkChatResult conversationId
                       (m_id (new_message ai (world_after rr))) agent
                       (ar_content response)
                       (match ar_toolCalls response with
                        | Some calls => map tr_tool calls
                        | None => []
                        end)))
    end.
Proof.
  intros Hc rr. unfold chat_from.
  rewrite (bind_run _ _ _ _ _ _
             (addMessage_run (user_input conversationId input) w0 c0 Hc)).
  fold (w_user input conversationId c0 w0). unfold getMessages.
  rewrite (bind_run _ _ _ _ _ _
             (message_findMany_run conversationId 50
                (w_user input conversationId c0 w0))).
  fold (history input conversationId c0 w0).
  destruct (router_sync_run_world model input conversationId c0 w0)
    as (Hy & Hdb & Hnow).
  fold rr in Hy, Hdb, Hnow.
  destruct (outcome rr) as [result|e] eqn:Hout.
  - assert (Hrr : router_generateResponse model
                    (mkAgentContext (in_userId input) conversationId
                       (history_messages (history input conversationId c0 w0)))
                    (w_user input conversationId c0 w0)
                  = mkRes [] (world_after rr) (Returned result)).
    { rewrite (res_eta (router_generateResponse _ _ _)).
      fold (router_sync_run model input conversationId c0 w0). fold rr.
      now rewrite Hy, Hout. }
    rewrite (bind_run _ _ _ _ _ _ Hrr). cbv beta zeta.
    set (ai := mkCreateMessageInput conversationId assistant
                 (ar_content (snd result)) (Some (fst (fst result)))
                 (ar_toolCalls (snd result)) None).
    assert (Hc2 : conversations (db (world_after rr)) !! in_conversationId ai
                  = Some (touched c0 (now w0))).
    { rewrite Hdb. unfold w_user, appended. run_cbn.
      cbn [in_conversationId user_input ai]. apply lookup_insert_eq. }
    rewrite (bind_run _ _ _ _ _ _ (addMessage_run _ _ _ Hc2)).
    destruct (length (history input conversationId c0 w0) =? 1)%nat.
    + destruct (generateTitle_returns conversationId
                  (appended ai (touched c0 (now w0)) (world_after rr)))
        as (title & w' & Ht & _).
      assert (Hg : (generateTitle conversationId ;;; ret tt)
                     (appended ai (touched c0 (now w0)) (world_after rr))
                   = mkRes [] w' (Returned tt)).
      { rewrite (bind_run _ _ _ _ _ _ Ht). reflexivity. }
      rewrite (bind_run _ _ _ _ _ _ Hg), Ht. reflexivity.
    + rewrite (bind_run _ _ _ _ _ _
                 (eq_refl : ret tt _ = mkRes [] _ (Returned tt))).
      reflexivity.
  - unfold bind.
    change (router_generateResponse model _ (w_user input conversationId c0 w0))
      with rr.
    rewrite Hout, Hy. reflexivity.
Qed.

(** X19. In synchronous mode ([chat]), when classification or the
    responder throws, [chat] throws the same value: the user's message has
    been stored, no assistant message is stored and the title of the
    conversation is left as it was. *)
Theorem chat_failure_keeps_user_message model input w c0 e :
  let id := snd (fst (opening input w)) in
  let w0 := snd (opening input w) in
  conversations (db w0) !! id = Some c0 ->
  outcome (router_sync_run model input id c0 w0) = Threw e ->
  let r := chat model input w in
  outcome r = Threw e
  /\ messages (db (world_after r))
     = messages (db w) ++ [new_message (user_input id input) w0]
  /\ conversations (db (world_after r)) !! id = Some (touched c0 (now w0))
  /\ c_title (touched c0 (now w0)) = c_title c0.
Proof.
  intros id w0 Hc He r. subst r. rewrite chat_split. fold id. fold w0.
  rewrite (chat_from_run model input id c0 w0 Hc). cbv zeta. rewrite He. run_cbn.
  destruct (router_sync_run_world model input id c0 w0) as (_ & Hdb & _).
  destruct (opening_messages input w) as [Hm _]. fold w0 in Hm.
  rewrite Hdb. unfold w_user, appended. run_cbn. rewrite Hm.
  cbn [in_conversationId user_input]. rewrite lookup_insert_eq. auto.
Qed.

Lemma chat_failure_keeps_user_message_witness :
  outcome (chat failing_model long_message open_world)
  = Threw (ErrorObject "model unavailable")
  /\ map m_role (messages (db (world_after (chat failing_model long_message
                                              open_world))))
     = [user].
Proof.
  destruct (chat_failure_keeps_user_message failing_model long_message open_world
              (mkConversationRow "conv_0" "user_demo" None None 5 5)
              (ErrorObject "model unavailable") eq_refl eq_refl)
    as (Hout & Hm & _).
  split; [exact Hout|]. rewrite Hm. reflexivity.
Defined.

(** X20. In synchronous mode, when the router returns a response, [chat]
    returns the conversation id, the id of the assistant message it has
    just stored, the agent, the response text and the names of the tools of
    the recorded calls; the stored messages are those before, the user's
    message and that assistant message, which carries the response text,
    the agent and the recorded calls. *)
Theorem chat_success_result model input w c0 agent routing response :
  let id := snd (fst (opening input w)) in
  let w0 := snd (opening input w) in
  conversations (db w0) !! id = Some c0 ->
  outcome (router_sync_run model input id c0 w0)
  = Returned (agent, routing, response) ->
  let r := chat model input w in
  exists saved,
    outcome r
    = Returned (mkChatResult id (m_id saved) agent (ar_content response)
                  (match ar_toolCalls response with
                   | Some calls => map tr_tool calls
                   | None => []
                   end))
    /\ messages (db (world_after r))
       = messages (db w) ++ [new_message (user_input id input) w0; saved]
    /\ (m_conversationId saved, m_role saved, m_content saved, m_agentType saved,
        m_toolCalls saved)
       = (id, assistant, ar_content response, Some agent, ar_toolCalls response).
Proof.
  intros id w0 Hc He r. subst r. rewrite chat_split. fold id. fold w0.
  rewrite (chat_from_run model input id c0 w0 Hc). cbv zeta. rewrite He.
  run_cbn.
  destruct (router_sync_run_world model input id c0 w0) as (_ & Hdb & _).
  destruct (opening_messages input w) as [Hm _]. fold w0 in Hm.
  eexists. split; [reflexivity|]. split; [|reflexivity].
  set (ai := mkCreateMessageInput id assistant (ar_content response)
               (Some agent) (ar_toolCalls response) None).
  set (w3 := appended ai (touched c0 (now w0))
               (world_after (router_sync_run model input id c0 w0))).
  assert (H3 : messages (db w3)
               = messages (db w)
                   ++ [new_message (user_input id input) w0;
                       new_message ai (world_after
                                         (router_sync_run model input id c0 w0))]).
  { unfold w3, appended. run_cbn. rewrite Hdb. unfold w_user, appended. run_cbn.
    rewrite Hm, <- app_assoc. reflexivity. }
  destruct (length (history input id c0 w0) =? 1)%nat; [|exact H3].
  destruct (generateTitle_returns id w3) as (title & w' & Ht & Hmsg & _).
  rewrite Ht. run_cbn. now rewrite Hmsg.
Qed.

Lemma chat_success_result_witness :
  outcome (chat hello_model long_message open_world)
  = Returned (mkChatResult "conv_0" "msg_2" order "You have no orders." []).
Proof.
  destruct (chat_success_result hello_model long_message open_world
              (mkConversationRow "conv_0" "user_demo" None None 5 5)
              order (mkRoutingResult order (9 # 10) "asks about orders")
              (mkAgentResponse "You have no orders." None) eq_refl eq_refl)
    as (saved & Hout & Hm & _).
  rewrite Hout. vm_compute in Hm. inversion Hm; subst. reflexivity.
Defined.






(** ** Billing tools *)

(** X23. [checkRefundStatus] never changes the world.  For an unknown
    invoice it answers [found: false] with the invoice number in the
    message; for a known one it answers with the payment's number, amount
    and status, [refundEligible] is true exactly when the status is
    [completed], and [refundEligible] and [hasRefund] are never both
    true. *)
Theorem checkRefundStatus_flags invoiceNumber w :
  let r := checkRefundStatus invoiceNumber w in
  world_after r = w
  /\ yielded r = []
  /\ match payments (db w) !! invoiceNumber with
     | None =>
         outcome r
         = Returned (RefundNotFound ("No invoice found with number "
                                       +:+ invoiceNumber))
     | Some p =>
         exists rs,
           outcome r = Returned (RefundFound rs)
           /\ (rs_invoiceNumber rs, originalAmount rs, paymentStatus rs)
              = (p_invoiceNumber p, p_amount p, p_status p)
           /\ (refundEligible rs = true <-> p_status p = completed)
           /\ ~ (refundEligible rs = true /\ hasRefund rs = true)
     end.
Proof.
  intros r. subst r. unfold checkRefundStatus, payment_findUnique. run_unfold.
  destruct (payments (db w) !! invoiceNumber) as [p|]; run_cbn.
  - split; [reflexivity|]. split; [reflexivity|].
    eexists. split; [reflexivity|].
    cbn [rs_invoiceNumber originalAmount paymentStatus refundEligible hasRefund].
    split; [reflexivity|]. unfold is_refund_status.
    destruct (p_status p); simpl; repeat split; try discriminate; auto;
      intros [? ?]; discriminate.
  - auto.
Qed.

Lemma Qlt_bool_irrefl (x : Q) : Qlt_bool x x = false.
Proof.
  unfold Qlt_bool. apply negb_false_iff. apply Qle_bool_iff. apply Qle_refl.
Qed.

(** X24. The two refund tools agree: for a payment that exists,
    [checkRefundStatus] reports [refundEligible: true] exactly when
    [requestRefund] without an amount succeeds, and that refund is then
    the full amount and not partial. *)
Theorem refundEligible_iff_requestRefund w invoiceNumber p reason :
  payments (db w) !! invoiceNumber = Some p ->
  exists rs res,
    outcome (checkRefundStatus invoiceNumber w) = Returned (RefundFound rs)
    /\ outcome (requestRefund invoiceNumber None reason w) = Returned res
    /\ (refundEligible rs = true <-> success res = true)
    /\ forall rq, res = RefundAccepted rq ->
         rq_refundAmount rq = p_amount p /\ isPartialRefund rq = false.
Proof.
  intros Hp. unfold checkRefundStatus, requestRefund, payment_findUnique.
  run_unfold. rewrite Hp. run_cbn. cbn [num_or].
  rewrite Qlt_bool_irrefl.
  destruct (bool_decide (p_status p = completed)) eqn:Hst; cbn [negb]; run_cbn.
  - eexists _, _. split; [reflexivity|]. split; [reflexivity|].
    cbn [refundEligible success]. split; [tauto|].
    intros rq Hrq. inversion Hrq; subst rq.
    cbn [rq_refundAmount isPartialRefund]. split; reflexivity.
  - eexists _, _. split; [reflexivity|]. split; [reflexivity|].
    cbn [refundEligible success].
    split; [split; discriminate | discriminate].
Qed.

Lemma refundEligible_iff_requestRefund_witness :
  exists res,
    outcome (requestRefund "INV-2024-SUB-001" None "not needed" seed_world)
    = Returned res
    /\ success res = true.
Proof.
  destruct (refundEligible_iff_requestRefund seed_world "INV-2024-SUB-001"
              (mkPayment "INV-2024-SUB-001" (2999 # 100) completed "credit_card"
                 None None)
              "not needed" eq_refl)
    as (rs & res & Hcheck & Hreq & Hiff & _).
  exists res. split; [exact Hreq|]. apply Hiff.
  vm_compute in Hcheck. inversion Hcheck; subst rs. reflexivity.
Defined.

(** X25. [requestRefund] with an amount, on a completed payment: an amount
    of 0 is handled exactly as no amount (a full refund); any other amount,
    negative ones included, is accepted exactly when it does not exceed
    the payment's amount, and the accepted refund then has that amount and
    is partial exactly when the amount is below the payment's. *)
Theorem requestRefund_amount w invoiceNumber p a reason :
  payments (db w) !! invoiceNumber = Some p ->
  p_status p = completed ->
  exists res,
    outcome (requestRefund invoiceNumber (Some a) reason w) = Returned res
    /\ ((a == 0)%Q ->
          requestRefund invoiceNumber (Some a) reason w
          = requestRefund invoiceNumber None reason w)
    /\ (~ (a == 0)%Q ->
          (success res = true <-> (a <= p_amount p)%Q)
          /\ forall rq, res = RefundAccepted rq ->
               rq_refundAmount rq = a
               /\ (isPartialRefund rq = true <-> (a < p_amount p)%Q)).
Proof.
  intros Hp Hst. unfold requestRefund, payment_findUnique. run_unfold.
  rewrite Hp. run_cbn. rewrite (bool_decide_eq_true_2 _ Hst). cbn [negb num_or].
  destruct (Qeq_bool a 0) eqn:Hz.
  - apply Qeq_bool_iff in Hz. rewrite Qlt_bool_irrefl. run_cbn.
    eexists. split; [reflexivity|]. split; [reflexivity|].
    intros Hnz. contradiction.
  - assert (Hnz : ~ (a == 0)%Q).
    { intros H. apply Qeq_bool_iff in H. congruence. }
    destruct (Qlt_bool (p_amount p) a) eqn:Hlt; run_cbn.
    + eexists. split; [reflexivity|]. split; [intros; contradiction|].
      intros _. cbn [success].
      unfold Qlt_bool in Hlt. apply negb_true_iff in Hlt.
      split.
      * split; [discriminate|]. intros Hle. apply Qle_bool_iff in Hle. congruence.
      * intros rq Hrq. discriminate Hrq.
    + eexists. split; [reflexivity|]. split; [intros; contradiction|].
      intros _. cbn [success].
      unfold Qlt_bool in Hlt. apply negb_false_iff in Hlt.
      apply Qle_bool_iff in Hlt.
      split; [tauto|].
      intros rq Hrq. inversion Hrq; subst rq.
      cbn [rq_refundAmount isPartialRefund]. split; [reflexivity|].
      unfold Qlt_bool. rewrite negb_true_iff.
      split.
      * intros Hb. apply Qnot_le_lt. intros Hle.
        apply Qle_bool_iff in Hle. congruence.
      * intros Hl. destruct (Qle_bool (p_amount p) a) eqn:E; [|reflexivity].
        apply Qle_bool_iff in E. lra.
Qed.

Lemma requestRefund_amount_witness :
  exists res,
    outcome (requestRefund "INV-2024-SUB-001" (Some (-5 # 1)) "test" seed_world)
    = Returned res
    /\ success res = true.
Proof.
  destruct (requestRefund_amount seed_world "INV-2024-SUB-001"
              (mkPayment "INV-2024-SUB-001" (2999 # 100) completed "credit_card"
                 None None)
              (-5 # 1) "test" eq_refl eq_refl)
    as (res & Hout & _ & Hnz).
  exists res. split; [exact Hout|].
  apply Hnz; [intros H; discriminate H | intros H; discriminate H].
Defined.

(** ** Rate limiting *)

Lemma rateLimit_counted cfg key t store e :
  store !! key = Some e ->
  (t <= rl_resetTime e)%Z ->
  fst (rateLimit cfg key t store)
  = <[key := mkRateLimitEntry (rl_count e + 1) (rl_resetTime e)]> store
  /\ passed (snd (rateLimit cfg key t store))
     = bool_decide (rl_count e + 1 <= maxRequests cfg)%Z.
Proof.
  intros He Ht. unfold rateLimit. rewrite He.
  destruct (rl_resetTime e <? t)%Z eqn:E; [apply Z.ltb_lt in E; lia|].
  cbn [rl_count rl_resetTime].
  destruct (maxRequests cfg <? rl_count e + 1)%Z eqn:E2; simpl.
  - apply Z.ltb_lt in E2. split; [reflexivity|].
    symmetry. apply bool_decide_eq_false_2. lia.
  - apply Z.ltb_ge in E2. split; [reflexivity|].
    symmetry. apply bool_decide_eq_true_2. lia.
Qed.

Lemma rateLimit_new_window cfg key t store :
  (store !! key = None
   \/ exists e, store !! key = Some e /\ (rl_resetTime e < t)%Z) ->
  rateLimit cfg key t store
  = (<[key := mkRateLimitEntry 1 (t + windowMs cfg)]> store,
     Allowed (allowed_headers cfg (mkRateLimitEntry 1 (t + windowMs cfg)))).
Proof.
  intros [Hn | (e & He & Ht)]; unfold rateLimit.
  - now rewrite Hn.
  - rewrite He. apply Z.ltb_lt in Ht. now rewrite Ht.
Qed.

Lemma serve_in_window cfg key times store c reset :
  store !! key = Some (mkRateLimitEntry c reset) ->
  Forall (fun t => (t <= reset)%Z) times ->
  serve cfg key times store
  = map (fun i => bool_decide (c + 1 + Z.of_nat i <= maxRequests cfg)%Z)
        (seq 0 (length times)).
Proof.
  intros He Ht. revert store c He.
  induction Ht as [|t times Ht _ IH]; intros store c He; [reflexivity|].
  destruct (rateLimit_counted cfg key t store _ He Ht) as [Hs Hp].
  cbn [serve length seq map]. rewrite Hs, Hp. cbn [rl_count rl_resetTime].
  rewrite (IH _ (c + 1)%Z) by apply lookup_insert_eq.
  rewrite <- seq_shift, map_map. f_equal.
  - apply bool_decide_ext. lia.
  - apply map_ext. intros i. apply bool_decide_ext. lia.
Qed.

(** X26. The quota of a window.  When a key has no entry, or an entry
    whose reset time has passed, its next request is let through and opens
    a window; of the further requests arriving up to the reset time of that
    window, the one with number [n] in the window is let through exactly
    when [n <= maxRequests].  The first request of a window is let through
    even when [maxRequests] is 0. *)
Theorem rateLimit_window_quota cfg key t0 times store :
  (store !! key = None
   \/ exists e, store !! key = Some e /\ (rl_resetTime e < t0)%Z) ->
  Forall (fun t => (t <= t0 + windowMs cfg)%Z) times ->
  serve cfg key (t0 :: times) store
  = true :: map (fun i => bool_decide (Z.of_nat i + 2 <= maxRequests cfg)%Z)
                (seq 0 (length times)).
Proof.
  intros Hnew Ht. cbn [serve]. rewrite (rateLimit_new_window _ _ _ _ Hnew).
  cbn [fst snd passed]. f_equal.
  rewrite (serve_in_window cfg key times _ 1 (t0 + windowMs cfg))
    by (apply lookup_insert_eq || exact Ht).
  apply map_ext. intros i. apply bool_decide_ext. lia.
Qed.

Lemma rateLimit_window_quota_witness :
  serve small_limit "chat:user_demo" [5000; 5100; 5200; 6000]%Z
        {[ "chat:user_demo" := mkRateLimitEntry 7 4000 ]}
  = [true; true; false; false].
Proof.
  apply (rateLimit_window_quota small_limit "chat:user_demo" 5000
           [5100; 5200; 6000]%Z).
  - right. exists (mkRateLimitEntry 7 4000). split; reflexivity.
  - repeat constructor; vm_compute; discriminate.
Defined.

Lemma cleanup_lookup now store key :
  cleanup now store !! key
  = match store !! key with
    | Some e => if (rl_resetTime e <? now)%Z then None else Some e
    | None => None
    end.
Proof.
  unfold cleanup. destruct (store !! key) as [e|] eqn:He.
  - destruct (rl_resetTime e <? now)%Z eqn:E.
    + apply Z.ltb_lt in E. apply map_lookup_filter_None. right.
      intros e' He' Hn. simpl in Hn. rewrite He in He'. inversion He'; subst.
      contradiction.
    + apply Z.ltb_ge in E. apply map_lookup_filter_Some. split; [exact He|].
      simpl. lia.
  - apply map_lookup_filter_None. left. exact He.
Qed.

(** X27. The periodic cleanup removes exactly the entries whose reset time
    has passed, and is invisible to the limiter: a request made at or after
    the time of a cleanup gets the same decision and headers, and leaves
    the same entry for its key, as if the cleanup had not run. *)
Theorem cleanup_transparent cfg key tc t store :
  (tc <= t)%Z ->
  snd (rateLimit cfg key t (cleanup tc store)) = snd (rateLimit cfg key t store)
  /\ fst (rateLimit cfg key t (cleanup tc store)) !! key
     = fst (rateLimit cfg key t store) !! key
  /\ forall k, cleanup tc store !! k
               = match store !! k with
                 | Some e => if (rl_resetTime e <? tc)%Z then None else Some e
                 | None => None
                 end.
Proof.
  intros Htc. split; [|split; [|intros k; apply cleanup_lookup]].
  - unfold rateLimit. rewrite cleanup_lookup.
    destruct (store !! key) as [e|]; [|reflexivity].
    destruct (rl_resetTime e <? tc)%Z eqn:E.
    + apply Z.ltb_lt in E.
      assert (Ht : (rl_resetTime e <? t)%Z = true) by (apply Z.ltb_lt; lia).
      now rewrite Ht.
    + destruct (rl_resetTime e <? t)%Z; [reflexivity|].
      cbn [rl_count rl_resetTime].
      destruct (maxRequests cfg <? rl_count e + 1)%Z; reflexivity.
  - unfold rateLimit. rewrite cleanup_lookup.
    destruct (store !! key) as [e|]; [|cbn [fst]; now rewrite !lookup_insert_eq].
    destruct (rl_resetTime e <? tc)%Z eqn:E.
    + apply Z.ltb_lt in E.
      assert (Ht : (rl_resetTime e <? t)%Z = true) by (apply Z.ltb_lt; lia).
      rewrite Ht. cbn [fst]. now rewrite !lookup_insert_eq.
    + destruct (rl_resetTime e <? t)%Z; [cbn [fst]; now rewrite !lookup_insert_eq|].
      cbn [rl_count rl_resetTime].
      destruct (maxRequests cfg <? rl_count e + 1)%Z; cbn [fst];
        now rewrite !lookup_insert_eq.
Qed.

Lemma cleanup_transparent_witness :
  passed (snd (rateLimit small_limit "chat:user_demo" 5000
                 (cleanup 4500 {[ "chat:user_demo" := mkRateLimitEntry 7 4000 ]})))
  = true.
Proof.
  rewrite (proj1 (cleanup_transparent small_limit "chat:user_demo" 4500 5000
                    {[ "chat:user_demo" := mkRateLimitEntry 7 4000 ]}
                    ltac:(lia))).
  reflexivity.
Defined.

Lemma rateLimit_other_key cfg key t store other :
  other <> key -> fst (rateLimit cfg key t store) !! other = store !! other.
Proof.
  intros Hne. unfold rateLimit.
  destruct (store !! key) as [e|]; [|cbn [fst]; now rewrite lookup_insert_ne].
  destruct (rl_resetTime e <? t)%Z; [cbn [fst]; now rewrite lookup_insert_ne|].
  cbn [rl_count rl_resetTime].
  destruct (maxRequests cfg <? rl_count e + 1)%Z; cbn [fst];
    now rewrite lookup_insert_ne.
Qed.

Lemma rateLimit_outcome_local cfg key t store store' :
  store !! key = store' !! key ->
  snd (rateLimit cfg key t store) = snd (rateLimit cfg key t store').
Proof.
  intros H. unfold rateLimit. rewrite H.
  destruct (store' !! key) as [e|]; [|reflexivity].
  destruct (rl_resetTime e <? t)%Z; [reflexivity|].
  cbn [rl_count rl_resetTime].
  destruct (maxRequests cfg <? rl_count e + 1)%Z; reflexivity.
Qed.

(** X28. The limiters share one map but keys do not interfere: a request
    under one key, by any limiter and at any time, changes no entry of
    another key and so does not change the decision that any limiter takes
    for a later request under another key. *)
Theorem rateLimit_keys_independent cfg1 cfg2 key1 key2 t1 t2 store :
  key1 <> key2 ->
  (forall other, other <> key1 ->
     fst (rateLimit cfg1 key1 t1 store) !! other = store !! other)
  /\ snd (rateLimit cfg2 key2 t2 (fst (rateLimit cfg1 key1 t1 store)))
     = snd (rateLimit cfg2 key2 t2 store).
Proof.
  intros Hne. split.
  - intros other Ho. now apply rateLimit_other_key.
  - apply rateLimit_outcome_local. apply rateLimit_other_key. congruence.
Qed.

Lemma rateLimit_keys_independent_witness :
  snd (apiRateLimit (mkRequestInfo (Some "10.0.0.1") None None "/api/agents") 7
         (fst (chatRateLimit (mkRequestInfo None None (Some "user_demo")
                                            "/api/chat/messages") 5 ∅)))
  = snd (apiRateLimit (mkRequestInfo (Some "10.0.0.1") None None "/api/agents") 7
         ∅).
Proof.
  apply (rateLimit_keys_independent chatRateLimit_config apiRateLimit_config
           "chat:user_demo" "10.0.0.1:/api/agents" 5 7 ∅).
  discriminate.
Defined.

(** ** Order tools *)

(** X29. The two order tools agree on what can still be changed: for every
    order number, [cancelOrder] succeeds exactly when [modifyOrder] reports
    [canModify: true], which in turn is exactly when 'cancel_order' is
    among the actions it offers; that is the case for the orders found with
    status pending or processing, and a successful cancellation reports the
    order's total as the refund amount. *)
Theorem cancelOrder_iff_canModify orders orderNumber reason :
  (cancel_success (cancelOrder orders orderNumber reason) = true
   <-> canModify_of (modifyOrder orders orderNumber) = true)
  /\ (canModify_of (modifyOrder orders orderNumber) = true
      <-> In "cancel_order" (actions_of (modifyOrder orders orderNumber)))
  /\ (canModify_of (modifyOrder orders orderNumber) = true
      <-> exists o, orders !! orderNumber = Some o
                    /\ (o_status o = o_pending \/ o_status o = o_processing))
  /\ forall msg number previous refund refundMessage why,
       cancelOrder orders orderNumber reason
       = CancelAccepted msg number previous refund refundMessage why ->
       exists o, orders !! orderNumber = Some o
                 /\ refund = o_total o /\ previous = o_status o.
Proof.
  unfold cancelOrder, modifyOrder.
  destruct (orders !! orderNumber) as [o|]; simpl.
  - destruct (o_status o) eqn:Hst; simpl;
      (split; [split; (discriminate || reflexivity)|]);
      (split; [split; [intros H; try discriminate H; simpl; auto
                      | intros H; simpl in H; try reflexivity;
                        repeat (destruct H as [H|H]; try discriminate H);
                        try contradiction]|]);
      (split; [split; [intros H; try discriminate H; exists o; auto
                      | intros (o' & Ho' & [H|H]); inversion Ho'; subst o';
                        try reflexivity; congruence]|]);
      intros msg number previous refund refundMessage why H;
      try discriminate H; inversion H; subst; exists o; auto.
  - split; [split; discriminate|].
    split; [split; [discriminate | intros []]|].
    split; [split; [discriminate | intros (o & Ho & _); discriminate Ho]|].
    intros msg number previous refund refundMessage why H. discriminate H.
Qed.

(** ** Agent listing *)

